(** * The [vault write] command and its MFA confirmation handshake

    A shallow embedding of [command/write.go]: the [WriteCommand.Run] method,
    its helpers [isInteractiveEnabled] and [getMFAMethodInfo], and the
    interactive confirmation [validateMFA].

    The command talks to its surroundings (flag parser, terminal, user
    interface, API client, renderers).  Each such call is an event of the
    program; a program is a finite tree of events, and it is run against an
    oracle that answers every event from the history so far.  The result of
    a run is the list of calls that were made, with their answers, and the
    exit code. *)

From Stdlib Require Import ZArith.
From stdpp Require Import base strings list gmap fin_maps pretty.


(** ** Data received from the server *)

Module logical.

(** [logical.MFAMethodID]: one configured method of a constraint. *)
Record MFAMethodID := {
  Type_ : string;
  ID : string;
  UsesPasscode : bool;
}.

(** [logical.MFAConstraintAny]: the alternatives of one constraint.  [Any]
    is a slice of pointers, [[]*MFAMethodID]; [None] is the nil pointer. *)
Record MFAConstraintAny := {
  Any : list (option MFAMethodID);
}.

(** [logical.MFARequirement]. The Go map, [map[string]*MFAConstraintAny],
    is a [gmap] whose values are pointers, [None] being nil; a nil map
    behaves as the empty one for [len] and [range]. *)
Record MFARequirement := {
  MFARequestID : string;
  MFAConstraints : gmap string (option MFAConstraintAny);
}.

End logical.

Import logical.

(** A Go [error] is represented by its [Error()] text; [None] is [nil]. *)
Definition error := string.

(** The values the command stores behind [interface{}] in a request body. *)
Inductive iface :=
  | IString (s : string)
  | IPayload (m : gmap string (list string)).

Definition Body := gmap string iface.

(** [api.SecretAuth] and [api.Secret], with the fields the command reads;
    [Data] stands for the rest of the response. *)
Record SecretAuth := {
  ClientToken : string;
  MFARequirement_ : option MFARequirement;
}.

Record Secret := {
  Data : list (string * string);
  Auth : option SecretAuth;
}.

(** [MFAMethodInfo contains the information about an MFA method]. *)
Record MFAMethodInfo := {
  methodID : string;
  methodType : string;
  usePasscode : bool;
}.

(** What the call of a Go function gives: the value it returns, or a
    run-time panic. *)
Inductive go_result (A : Type) : Type :=
  | Returned (a : A)
  | Panicked.
Arguments Returned {_} _.
Arguments Panicked {_}.

(** The text of the panic that reading through a nil pointer raises. *)
Definition nil_dereference : string :=
  "runtime error: invalid memory address or nil pointer dereference".

(** The zero value [MFAMethodInfo{}]. *)
Definition MFAMethodInfo_zero : MFAMethodInfo :=
  {| methodID := ""; methodType := ""; usePasscode := false |}.

(** [WriteCommand] with the flag fields of the embedded [BaseCommand] that
    [Run] reads after parsing. [testStdin] is the reader used by tests. *)
Record WriteCommand := {
  flagForce : bool;
  flagField : string;
  flagNonInteractive : bool;
  testStdin : option string;
}.

(** What [f.Parse] stores through the flag targets of [c.Flags()]. *)
Definition set_flags (c : WriteCommand) (fl : bool * string * bool) : WriteCommand :=
  let '(force, field, nonInteractive) := fl in
  {| flagForce := force; flagField := field;
     flagNonInteractive := nonInteractive; testStdin := testStdin c |}.

(** ** The calls the command makes *)

(** The reader handed to [parseArgsData]. *)
Inductive Reader :=
  | os_Stdin
  | test_reader (name : string).

Definition ClientHandle := nat.

(** One constructor per external call; the index is the type of its answer.
    Pairs are Go's multiple results, in order. *)
Inductive Call : Type → Type :=
  (* [f.Parse(args)] followed by [f.Args()]: the error, the values of
     [-force], [-field] and [-non-interactive], and the remaining arguments *)
  | FlagsParse (args : list string) :
      Call (option error * (bool * string * bool) * list string)
  | parseArgsData (stdin : Reader) (args : list string) :
      Call (Body * option error)
  | Client : Call (ClientHandle * option error)
  | Logical_Write (client : ClientHandle) (path : string) (data : Body) :
      Call (option Secret * option error)
  | isatty_IsTerminal : Call bool
  | Format : Call string
  | UI_Error (msg : string) : Call unit
  | UI_Warn (msg : string) : Call unit
  | UI_Info (msg : string) : Call unit
  | UI_AskSecret (query : string) : Call (string * option error)
  | OutputSecret (secret : Secret) : Call Z
  | PrintRawField (secret : Secret) (field : string) : Call Z
  (* a panic leaves [Run], which has no deferred call: none of its code runs
     afterwards.  The answer is the status with which what is above [Run],
     a recovering caller or the Go runtime, ends the invocation *)
  | runtime_panic (msg : string) : Call Z.

(** A call together with the answer it got. *)
Record Obs := ev { obs_type : Type; obs_call : Call obs_type; obs_answer : obs_type }.
Arguments ev {_} _ _.

Definition Trace := list Obs.

(** The surroundings: the answer to a call, given all that happened before. *)
Definition Oracle := ∀ X, Trace → Call X → X.

(** ** Programs *)

Inductive prog (R : Type) : Type :=
  | Ret (r : R)
  | Vis {X : Type} (e : Call X) (k : X → prog R).
Arguments Ret {_} _.
Arguments Vis {_ _} _ _.

Fixpoint bind {A B} (f : A → prog B) (p : prog A) : prog B :=
  match p with
  | Ret a => f a
  | Vis e k => Vis e (λ x, bind f (k x))
  end.

#[global] Instance prog_ret : MRet prog := @Ret.
#[global] Instance prog_bind : MBind prog := @bind.

Definition call {X} (e : Call X) : prog X := Vis e Ret.

(** [run o p h] runs [p] after the history [h]: the calls [p] makes, with
    the oracle's answers, and the value returned. *)
Fixpoint run {R} (o : Oracle) (p : prog R) (h : Trace) : Trace * R :=
  match p with
  | Ret r => ([], r)
  | Vis e k =>
      let x := o _ h e in
      let '(t, r) := run o (k x) (h ++ [ev e x]) in
      (ev e x :: t, r)
  end.

(** ** Functions of the package and of Go that [write.go] only calls *)

(** [sanitizePath] and [wrapAtLength] are helpers of the [command] package,
    [fmt_q] is what [fmt.Sprintf] prints for a string under the verb [%q],
    and [map_range] is the order in which a [range] loop visits a map: Go
    leaves it unspecified, so it is any enumeration of the entries. *)
Class GoEnv := {
  sanitizePath : string → string;
  wrapAtLength : string → string;
  fmt_q : string → string;
  map_range : gmap string (option MFAConstraintAny) →
              list (string * option MFAConstraintAny);
  map_range_perm : ∀ m, map_range m ≡ₚ map_to_list m;
}.

Definition newline : string := String (Ascii.ascii_of_nat 10) EmptyString.

Section command.
Context `{GoEnv}.

(** ** [isInteractiveEnabled] (write.go, 180-190)

    The [||] of Go evaluates its right operand, the terminal test, only
    when the left one is false. *)
Definition isInteractiveEnabled (c : WriteCommand) (mfaConstraintLen : nat) : prog bool :=
  if negb (mfaConstraintLen =? 1) then mret false
  else
    tty ← call isatty_IsTerminal;
    if negb tty then mret false
    else if negb (flagNonInteractive c) then mret true
    else mret false.

(** ** [getMFAMethodInfo] (write.go, 192-208)

    The loop body returns in its first iteration, so only the first entry
    that [range] yields is looked at.  Line 196 reads [mfaConstraint.Any]
    and lines 201-203 read the fields of [Any[0]], both through a pointer
    that is not tested: on a nil pointer the function panics.  [Any[0]] is
    read after the length test; the [None] branch of the lookup cannot be
    reached. *)
Definition getMFAMethodInfo (mfaConstraintAny : gmap string (option MFAConstraintAny)) :
    go_result MFAMethodInfo :=
  match map_range mfaConstraintAny with
  | (_, mfaConstraint) :: _ =>
      match mfaConstraint with
      | None => Panicked
      | Some mfaConstraint =>
          if negb (length (Any mfaConstraint) =? 1) then Returned MFAMethodInfo_zero
          else
            match Any mfaConstraint !! 0 with
            | Some (Some m0) =>
                Returned {| methodType := Type_ m0; methodID := ID m0;
                            usePasscode := UsesPasscode m0 |}
            | Some None => Panicked
            | None => Returned MFAMethodInfo_zero
            end
      end
  | [] => Returned MFAMethodInfo_zero
  end.

(** ** [validateMFA] (write.go, 210-262) *)

Definition askSecret_query (methodInfo : MFAMethodInfo) : string :=
  "Enter the passphrase for methodID " +:+ fmt_q (methodID methodInfo) +:+
  " of type " +:+ fmt_q (methodType methodInfo) +:+ ":".

Definition askSecret_failed (e : error) : string :=
  "failed to read the passphrase with error " +:+ fmt_q e +:+
  ". please validate the login by sending a request to sys/mfa/validate".

Definition push_notice : string :=
  "Asking Vault to perform MFA validation with upstream service. " +:+
  "You should receive a push notification in your authenticator app shortly".

Definition success_msg (path : string) : string :=
  "Success! Data written to: " +:+ path.

(** The request body built at lines 225-227 and 237-240. *)
Definition mfaPayload (methodInfo : MFAMethodInfo) (passcode : string) : gmap string (list string) :=
  {[ methodID methodInfo := [passcode] ]}.

Definition validate_body (reqID : string) (methodInfo : MFAMethodInfo) (passcode : string) : Body :=
  <[ "mfa_request_id" := IString reqID ]>
    {[ "mfa_payload" := IPayload (mfaPayload methodInfo passcode) ]}.

(** Lines 224-261: what [validateMFA] does once [passcode] is set. *)
Definition validateMFA_submit (c : WriteCommand) (reqID : string)
    (methodInfo : MFAMethodInfo) (passcode : string) : prog Z :=
  '(client, err) ← call Client;
  match err with
  | Some e => call (UI_Error e);; mret 2%Z
  | None =>
      let path := "sys/mfa/validate" in
      '(secret, err) ← call (Logical_Write client path (validate_body reqID methodInfo passcode));
      match err with
      | Some e =>
          call (UI_Error e);;
          match secret with
          | Some s => call (OutputSecret s);; mret 2%Z
          | None => mret 2%Z
          end
      | None =>
          match secret with
          | None =>
              fmt ← call Format;
              if String.eqb fmt "table"
              then call (UI_Info (success_msg path));; mret 0%Z
              else mret 0%Z
          | Some s =>
              if negb (String.eqb (flagField c) "")
              then call (PrintRawField s (flagField c))
              else call (OutputSecret s)
          end
      end
  end.

Definition validateMFA (c : WriteCommand) (reqID : string) (methodInfo : MFAMethodInfo) : prog Z :=
  if usePasscode methodInfo then
    '(passcode, err) ← call (UI_AskSecret (askSecret_query methodInfo));
    match err with
    | Some e => call (UI_Error (askSecret_failed e));; mret 2%Z
    | None => validateMFA_submit c reqID methodInfo passcode
    end
  else
    call (UI_Warn push_notice);;
    validateMFA_submit c reqID methodInfo "".

(** ** [Run] (write.go, 104-178) *)

Definition deferral_warning : string :=
  wrapAtLength ("A login request was issued that is subject to " +:+
    "MFA validation. Please make sure to validate the login by sending another " +:+
    "request to sys/mfa/validate endpoint.") +:+ newline.

(** Lines 158-177: what [Run] does with a non-nil response of a write
    that returned no error.  [deferred] is the fall-through of the block
    158-170: the warning of line 167, then the output of lines 172-177.
    A panic of [getMFAMethodInfo] at line 162 is not recovered in [Run]: it
    ends what [Run] does. *)
Definition Run_response (c : WriteCommand) (secret : Secret) : prog Z :=
  let output : prog Z :=
    (* Handle single field output *)
    if negb (String.eqb (flagField c) "")
    then call (PrintRawField secret (flagField c))
    else call (OutputSecret secret) in
  let deferred : prog Z :=
    call (UI_Warn deferral_warning);; output in
  match Auth secret with
  | Some auth =>
      match MFARequirement_ auth with
      | Some req =>
          enabled ← isInteractiveEnabled c (size (MFAConstraints req));
          if (enabled : bool) then
            (* Currently, if there is only one MFA method configured, the login
               request is validated interactively *)
            match getMFAMethodInfo (MFAConstraints req) with
            | Returned methodInfo =>
                if negb (String.eqb (methodID methodInfo) "")
                then validateMFA c (MFARequestID req) methodInfo
                else deferred
            | Panicked => call (runtime_panic nil_dereference)
            end
          else deferred
      | None => output
      end
  | None => output
  end.

(** The eligibility decision that lines 159-166 take, as a value: with
    [AutoResolve] [Run] returns what [validateMFA] returns for the method,
    with [Defer] it falls through to the warning.  No decision is taken
    when [getMFAMethodInfo] panics. *)
Inductive Decision :=
  | AutoResolve (methodInfo : MFAMethodInfo)
  | Defer.

Definition evaluate_requirement (c : WriteCommand) (req : MFARequirement) :
    prog (go_result Decision) :=
  enabled ← isInteractiveEnabled c (size (MFAConstraints req));
  if (enabled : bool) then
    match getMFAMethodInfo (MFAConstraints req) with
    | Returned methodInfo =>
        if negb (String.eqb (methodID methodInfo) "")
        then mret (Returned (AutoResolve methodInfo))
        else mret (Returned Defer)
    | Panicked => mret Panicked
    end
  else mret (Returned Defer).

Definition Run (c0 : WriteCommand) (args : list string) : prog Z :=
  '(err, fl, args) ← call (FlagsParse args);
  let c := set_flags c0 fl in
  match err with
  | Some e => call (UI_Error e);; mret 1%Z
  | None =>
      if length args <? 1 then
        call (UI_Error ("Not enough arguments (expected 1, got " +:+
                        pretty (length args) +:+ ")"));; mret 1%Z
      else if (length args =? 1) && negb (flagForce c) then
        call (UI_Error "Must supply data or use -force");; mret 1%Z
      else
        (* Pull our fake stdin if needed *)
        let stdin :=
          match testStdin c with
          | Some r => test_reader r
          | None => os_Stdin
          end in
        let path := sanitizePath (hd "" args) in
        '(data, err) ← call (parseArgsData stdin (tail args));
        match err with
        | Some e => call (UI_Error ("Failed to parse K=V data: " +:+ e));; mret 1%Z
        | None =>
            '(client, err) ← call Client;
            match err with
            | Some e => call (UI_Error e);; mret 2%Z
            | None =>
                '(secret, err) ← call (Logical_Write client path data);
                match err with
                | Some e =>
                    call (UI_Error ("Error writing data to " +:+ path +:+ ": " +:+ e));;
                    match secret with
                    | Some s => call (OutputSecret s);; mret 2%Z
                    | None => mret 2%Z
                    end
                | None =>
                    match secret with
                    | None =>
                        (* Don't output anything unless using the "table" format *)
                        fmt ← call Format;
                        if String.eqb fmt "table"
                        then call (UI_Info (success_msg path));; mret 0%Z
                        else mret 0%Z
                    | Some secret => Run_response c secret
                    end
                end
            end
        end
  end.

End command.

(** ** Reading a trace *)

Definition written (ob : Obs) : option (ClientHandle * string * Body) :=
  match obs_call ob with
  | Logical_Write cl path data => Some (cl, path, data)
  | _ => None
  end.

Definition asked (ob : Obs) : option string :=
  match obs_call ob with
  | UI_AskSecret q => Some q
  | _ => None
  end.

Definition client_requested (ob : Obs) : option unit :=
  match obs_call ob with
  | Client => Some tt
  | _ => None
  end.

(** The write requests, the secret prompts and the client look-ups of a trace. *)
Definition writes (t : Trace) : list (ClientHandle * string * Body) := omap written t.
Definition prompts (t : Trace) : list string := omap asked t.
Definition client_requests (t : Trace) : nat := length (omap client_requested t).

(** [msg] contains [needle]. *)
Definition mentions (needle msg : string) : Prop :=
  ∃ a b, msg = a +:+ needle +:+ b.

Definition info_of (m : MFAMethodID) : MFAMethodInfo :=
  {| methodID := ID m; methodType := Type_ m; usePasscode := UsesPasscode m |}.

(** What lines 196-204 give for the constraint that [range] yields. *)
Definition read_constraint (cptr : option MFAConstraintAny) : go_result MFAMethodInfo :=
  match cptr with
  | Some cst =>
      match Any cst with
      | [Some m] => Returned (info_of m)
      | [None] => Panicked
      | _ => Returned MFAMethodInfo_zero
      end
  | None => Panicked
  end.

(** The requirement has exactly one constraint, and that constraint has
    exactly the one method [m]. *)
Definition one_constraint_one_method (req : MFARequirement) (m : MFAMethodID) : Prop :=
  ∃ name, MFAConstraints req = {[ name := Some {| Any := [Some m] |} ]}.

(** The method of a requirement that has exactly one constraint with
    exactly one method, computed from the entries of the map: [None] when
    the constraints are not exactly one or the methods of the constraint
    are not exactly one; otherwise the pointer that stands for the method,
    which is [Some None] when the constraint, or its one method, is nil. *)
Definition the_single_method (req : MFARequirement) : option (option MFAMethodID) :=
  match map_to_list (MFAConstraints req) with
  | [(_, Some cst)] =>
      match Any cst with
      | [m] => Some m
      | _ => None
      end
  | [(_, None)] => Some None
  | _ => None
  end.

(** The session is interactive: standard input is a terminal and
    [-non-interactive] was not given. *)
Definition interactive (o : Oracle) (h : Trace) (c : WriteCommand) : Prop :=
  o _ h isatty_IsTerminal = true ∧ flagNonInteractive c = false.

(** A nil pointer is read: the session is interactive, so that
    [getMFAMethodInfo] is called, and the single constraint, or its single
    method, is nil. *)
Definition nil_pointer_read (o : Oracle) (h : Trace) (c : WriteCommand)
    (req : MFARequirement) : Prop :=
  interactive o h c ∧ the_single_method req = Some None.

(** The call that renders a response: the single field when [-field] was
    given, the whole response otherwise. *)
Definition render_call (c : WriteCommand) (secret : Secret) : Call Z :=
  if negb (String.eqb (flagField c) "")
  then PrintRawField secret (flagField c)
  else OutputSecret secret.

(** Some response body is rendered before some error message. *)
Definition is_output (ob : Obs) : bool :=
  match obs_call ob with OutputSecret _ => true | _ => false end.

Definition is_error (ob : Obs) : bool :=
  match obs_call ob with UI_Error _ => true | _ => false end.

Fixpoint body_before_error (t : Trace) : bool :=
  match t with
  | [] => false
  | ob :: t' => (is_output ob && existsb is_error t') || body_before_error t'
  end.

(** A write that returned an error, and a secret prompt that did. *)
Definition failed_write (ob : Obs) : bool :=
  match ob with
  | {| obs_call := e; obs_answer := a |} =>
      match e in Call X return X → bool with
      | Logical_Write _ _ _ => λ a, bool_decide (is_Some a.2)
      | _ => λ _, false
      end a
  end.

Definition failed_prompt (ob : Obs) : bool :=
  match ob with
  | {| obs_call := e; obs_answer := a |} =>
      match e in Call X return X → bool with
      | UI_AskSecret _ => λ a, bool_decide (is_Some a.2)
      | _ => λ _, false
      end a
  end.

(** What follows the first observation that satisfies [P]. *)
Fixpoint after (P : Obs → bool) (t : Trace) : option Trace :=
  match t with
  | [] => None
  | ob :: t' => if P ob then Some t' else after P t'
  end.

(** Nothing is asked of the user or of the server. *)
Definition quiet (t : Trace) : Prop :=
  writes t = [] ∧ prompts t = [] ∧ client_requests t = 0.

(** ** More readings of a trace, and the stages of [Run] *)

Definition terminal_tested (ob : Obs) : option unit :=
  match obs_call ob with
  | isatty_IsTerminal => Some tt
  | _ => None
  end.

Definition rendering (ob : Obs) : option Secret :=
  match obs_call ob with
  | OutputSecret s => Some s
  | PrintRawField s _ => Some s
  | _ => None
  end.

(** The number of terminal tests and the responses handed to a renderer. *)
Definition terminal_tests (t : Trace) : nat := length (omap terminal_tested t).
Definition rendered (t : Trace) : list Secret := omap rendering t.

(** [ob] is a client look-up that returned [cl] without error. *)
Definition lookup_of (cl : ClientHandle) (ob : Obs) : bool :=
  match ob with
  | {| obs_call := e; obs_answer := a |} =>
      match e in Call X return X → bool with
      | Client => λ a, bool_decide (a = (cl, None))
      | _ => λ _, false
      end a
  end.

(** Every write of [t] comes right after the look-up of its client;
    [last] is the call made just before [t]. *)
Fixpoint writes_after_lookup (last : option Obs) (t : Trace) : bool :=
  match t with
  | [] => true
  | ob :: t' =>
      match written ob with
      | Some (cl, _, _) =>
          match last with
          | Some l => lookup_of cl l
          | None => false
          end
      | None => true
      end && writes_after_lookup (Some ob) t'
  end.

(** A run that ends before a response is looked at: no prompt, no
    terminal test, at most one client look-up and one write, the write
    right after the look-up. *)
Definition early (t : Trace) : Prop :=
  prompts t = [] ∧ terminal_tests t = 0 ∧ length (writes t) ≤ 1 ∧
  client_requests t ≤ 1 ∧ writes_after_lookup None t = true.

(** The order of [range] that visits the constraint [name] first. *)
Definition range_from (name : string) (m : gmap string (option MFAConstraintAny)) :
    list (string * option MFAConstraintAny) :=
  match m !! name with
  | Some cst => (name, cst) :: map_to_list (delete name m)
  | None => map_to_list m
  end.

(** A panic was raised. *)
Definition is_panic (ob : Obs) : bool :=
  match obs_call ob with
  | runtime_panic _ => true
  | _ => false
  end.

Definition panicked (t : Trace) : bool := existsb is_panic t.

(** The reader of lines 123-126. *)
Definition reader_of (c : WriteCommand) : Reader :=
  match testStdin c with
  | Some r => test_reader r
  | None => os_Stdin
  end.

(** The arguments left after the flags pass the tests of lines 113-120:
    at least one, and more than one unless [-force] is given. *)
Definition arguments_accepted (force : bool) (rest : list string) : Prop :=
  rest ≠ [] ∧ (length rest = 1 → force = true).

(** The requirement a response carries, if any, and whether it has
    exactly one constraint. *)
Definition requirement_of (secret : Secret) : option MFARequirement :=
  match Auth secret with
  | Some auth => MFARequirement_ auth
  | None => None
  end.

Definition single_constraint (secret : Secret) : bool :=
  match requirement_of secret with
  | Some req => size (MFAConstraints req) =? 1
  | None => false
  end.

Section stages.
Context `{GoEnv}.

(** The flags parse to [fl] and the accepted arguments [rest]. *)
Definition parsed (o : Oracle) (h : Trace) (args : list string)
    (fl : bool * string * bool) (rest : list string) : Prop :=
  o _ h (FlagsParse args) = (None, fl, rest) ∧ arguments_accepted fl.1.1 rest.

Definition parse_obs (args : list string) (fl : bool * string * bool)
    (rest : list string) : Obs :=
  ev (FlagsParse args) (None, fl, rest).

Definition data_call (c0 : WriteCommand) (rest : list string) : Call (Body * option error) :=
  parseArgsData (reader_of c0) (tail rest).

(** Then [parseArgsData] answers [(data, err)]. *)
Definition data_read (o : Oracle) (h : Trace) (c0 : WriteCommand) (args : list string)
    (fl : bool * string * bool) (rest : list string)
    (data : Body) (err : option error) : Prop :=
  parsed o h args fl rest ∧
  o _ (h ++ [parse_obs args fl rest]) (data_call c0 rest) = (data, err).

(** Then, the data read without error, [c.Client()] answers [(cl, err)]. *)
Definition client_asked (o : Oracle) (h : Trace) (c0 : WriteCommand) (args : list string)
    (fl : bool * string * bool) (rest : list string)
    (data : Body) (cl : ClientHandle) (err : option error) : Prop :=
  data_read o h c0 args fl rest data None ∧
  o _ (h ++ [parse_obs args fl rest; ev (data_call c0 rest) (data, None)]) Client
    = (cl, err).

Definition first_write (cl : ClientHandle) (rest : list string) (data : Body) :
    Call (option Secret * option error) :=
  Logical_Write cl (sanitizePath (hd "" rest)) data.

(** The calls made up to the client look-up, all without error. *)
Definition up_to_client (c0 : WriteCommand) (args : list string)
    (fl : bool * string * bool) (rest : list string)
    (data : Body) (cl : ClientHandle) : Trace :=
  [parse_obs args fl rest; ev (data_call c0 rest) (data, None); ev Client (cl, None)].

(** Then, the client obtained, the write answers [ans]. *)
Definition first_written (o : Oracle) (h : Trace) (c0 : WriteCommand) (args : list string)
    (fl : bool * string * bool) (rest : list string)
    (data : Body) (cl : ClientHandle) (ans : option Secret * option error) : Prop :=
  client_asked o h c0 args fl rest data cl None ∧
  o _ (h ++ up_to_client c0 args fl rest data cl) (first_write cl rest data) = ans.

End stages.

(** ** Sample surroundings *)

Definition dquote : string := String (Ascii.ascii_of_nat 34) EmptyString.

#[local] Instance sample_env : GoEnv := {|
  sanitizePath s := s;
  wrapAtLength s := s;
  fmt_q s := dquote +:+ s +:+ dquote;
  map_range m := map_to_list m;
  map_range_perm m := Permutation_refl (map_to_list m);
|}.

(** Surroundings that answer from a fixed script: the client look-up by
    the number of earlier look-ups, the write by its path.  A panic ends
    the process with status 2, as the Go runtime does. *)
Record Script := {
  on_parse : option error * (bool * string * bool) * list string;
  on_data : Body * option error;
  on_client : nat → ClientHandle * option error;
  on_write : string → option Secret * option error;
  on_tty : bool;
  on_format : string;
  on_ask : string * option error;
  on_output : Z;
  on_field : Z;
}.

Definition scripted (s : Script) : Oracle := λ X h e,
  match e in Call X return X with
  | FlagsParse _ => on_parse s
  | parseArgsData _ _ => on_data s
  | Client => on_client s (client_requests h)
  | Logical_Write _ path _ => on_write s path
  | isatty_IsTerminal => on_tty s
  | Format => on_format s
  | UI_Error _ | UI_Warn _ | UI_Info _ => tt
  | UI_AskSecret _ => on_ask s
  | OutputSecret _ => on_output s
  | PrintRawField _ _ => on_field s
  | runtime_panic _ => 2%Z
  end.

(** Sample data: a requirement with one constraint and one method, and the
    surroundings of an interactive session in which every call succeeds. *)
Definition sample_method (id : string) (passcode : bool) : MFAMethodID :=
  {| Type_ := if passcode then "totp" else "push"; ID := id; UsesPasscode := passcode |}.

Definition sample_requirement (ms : list MFAMethodID) : MFARequirement :=
  {| MFARequestID := "rid";
     MFAConstraints := {[ "c1" := Some {| Any := Some <$> ms |} ]} |}.

Definition sample_secret (req : MFARequirement) : Secret :=
  {| Data := []; Auth := Some {| ClientToken := ""; MFARequirement_ := Some req |} |}.

Definition sample_command : WriteCommand :=
  {| flagForce := false; flagField := ""; flagNonInteractive := false; testStdin := None |}.

Definition sample_script (first confirmation : option Secret * option error)
    (ask : string * option error) : Script :=
  {| on_parse := (None, (false, "", false), ["auth/userpass/login/alice"; "password=pw"]);
     on_data := ({[ "password" := IString "pw" ]}, None);
     on_client := λ _, (7, None);
     on_write := λ path,
       if String.eqb path "sys/mfa/validate" then confirmation else first;
     on_tty := true;
     on_format := "table";
     on_ask := ask;
     on_output := 0%Z;
     on_field := 0%Z |}.

(** A passcode method, a push method, and the responses used below. *)
Definition totp_requirement : MFARequirement :=
  sample_requirement [sample_method "m1" true].

Definition push_requirement : MFARequirement :=
  sample_requirement [sample_method "m1" false].

Definition two_constraints : MFARequirement :=
  {| MFARequestID := "rid";
     MFAConstraints :=
       <[ "c1" := Some {| Any := [Some (sample_method "m1" true)] |} ]>
         {[ "c2" := Some {| Any := [Some (sample_method "m2" false)] |} ]} |}.

Definition token_response : Secret :=
  {| Data := [("token", "s.abc")]; Auth := None |}.

Definition denied_response : Secret :=
  {| Data := [("errors", "invalid passcode")]; Auth := None |}.

(** Every call succeeds and the user types [123456]. *)
Definition happy (req : MFARequirement) : Oracle :=
  scripted (sample_script (Some (sample_secret req), None)
              (Some token_response, None) ("123456", None)).

(** The confirmation is refused, with a response body. *)
Definition refused (req : MFARequirement) : Oracle :=
  scripted (sample_script (Some (sample_secret req), None)
              (Some denied_response, Some "permission denied") ("123456", None)).

(** Standard input is not a terminal. *)
Definition piped (req : MFARequirement) : Oracle :=
  scripted
    {| on_parse := (None, (false, "", false), ["auth/userpass/login/alice"; "password=pw"]);
       on_data := ({[ "password" := IString "pw" ]}, None);
       on_client := λ _, (7, None);
       on_write := λ _, (Some (sample_secret req), None);
       on_tty := false;
       on_format := "table";
       on_ask := ("123456", None);
       on_output := 0%Z;
       on_field := 0%Z |}.

(** The secret prompt fails. *)
Definition no_input (req : MFARequirement) : Oracle :=
  scripted (sample_script (Some (sample_secret req), None)
              (Some token_response, None) ("", Some "EOF")).

(** A requirement whose only constraint is a nil pointer. *)
Definition nil_constraint : MFARequirement :=
  {| MFARequestID := "rid"; MFAConstraints := {[ "c1" := None ]} |}.


(** The confirmation succeeds and the renderer returns 1. *)
Definition render_fails (req : MFARequirement) : Oracle :=
  scripted
    {| on_parse := (None, (false, "", false), ["auth/userpass/login/alice"; "password=pw"]);
       on_data := ({[ "password" := IString "pw" ]}, None);
       on_client := λ _, (7, None);
       on_write := λ path,
         if String.eqb path "sys/mfa/validate"
         then (Some token_response, None) else (Some (sample_secret req), None);
       on_tty := true;
       on_format := "table";
       on_ask := ("123456", None);
       on_output := 1%Z;
       on_field := 1%Z |}.

(** Further sample surroundings: one early end of [Run] each. *)
Definition sample_args : list string := ["auth/userpass/login/alice"; "password=pw"].

Definition script_of (parse : option error * (bool * string * bool) * list string)
    (data : Body * option error) (client : ClientHandle * option error)
    (write : option Secret * option error) : Script :=
  {| on_parse := parse; on_data := data; on_client := λ _, client;
     on_write := λ _, write; on_tty := true; on_format := "table";
     on_ask := ("123456", None); on_output := 0%Z; on_field := 0%Z |}.

Definition sample_data : Body := {[ "password" := IString "pw" ]}.

Definition bad_flags : Oracle :=
  scripted (script_of (Some "flag provided but not defined: -x", (false, "", false), [])
              (sample_data, None) (7, None) (None, None)).

Definition bad_data : Oracle :=
  scripted (script_of (None, (false, "", false), sample_args)
              (∅, Some "invalid key/value pair") (7, None) (None, None)).

Definition no_client : Oracle :=
  scripted (script_of (None, (false, "", false), sample_args)
              (sample_data, None) (0, Some "unable to create client") (None, None)).

Definition write_denied : Oracle :=
  scripted (script_of (None, (false, "token", false), sample_args)
              (sample_data, None) (7, None)
              (Some denied_response, Some "permission denied")).

Definition forced_write : Oracle :=
  scripted (script_of (None, (true, "", false), ["transit/keys/my-key"])
              (∅, None) (7, None) (None, None)).

Definition ordinary_write : Oracle :=
  scripted (script_of (None, (false, "token", false), sample_args)
              (sample_data, None) (7, None) (Some token_response, None)).

Section reading.
Context `{GoEnv}.

(** The confirmation body, written out. *)
Definition confirmation_body (rid m p : string) : Body :=
  <[ "mfa_request_id" := IString rid ]>
    {[ "mfa_payload" := IPayload {[ m := [p] ]} ]}.

(** [validateMFA], run after [h], obtains the passcode [p] by the calls
    [t1]: a successful prompt for a passcode method, the notice and the
    empty string otherwise. *)
Definition collects (o : Oracle) (h : Trace) (methodInfo : MFAMethodInfo)
    (p : string) (t1 : Trace) : Prop :=
  if usePasscode methodInfo then
    o _ h (UI_AskSecret (askSecret_query methodInfo)) = (p, None) ∧
    t1 = [ev (UI_AskSecret (askSecret_query methodInfo)) (p, None)]
  else
    p = "" ∧ t1 = [ev (UI_Warn push_notice) tt].

End reading.

Section handled.
Context `{GoEnv}.

(** The trace ends with a failed secret prompt and its error message. *)
Definition ends_at_failed_prompt (t : Trace) : Prop :=
  ∃ t0 q p e,
    t = t0 ++ [ev (UI_AskSecret q) (p, Some e);
               ev (UI_Error (askSecret_failed e)) tt] ∧
    prompts t0 = [].

(** What holds of the calls [t] and the exit code of a run that may
    contain a confirmation: at most one write and one client look-up; after
    a failed write nothing more is asked and the code is 2; a failed prompt
    is followed by its error message only, with no write at all. *)
Definition handled (t : Trace) (code : Z) : Prop :=
  length (writes t) ≤ 1 ∧ client_requests t ≤ 1 ∧
  (∀ t', after failed_write t = Some t' → code = 2%Z ∧ quiet t') ∧
  (existsb failed_prompt t = true →
     code = 2%Z ∧ writes t = [] ∧ client_requests t = 0 ∧
     ends_at_failed_prompt t).

End handled.

Section facts.
Context `{GoEnv}.

Lemma run_bind {A B} (o : Oracle) (p : prog A) (f : A → prog B) (h : Trace) :
  run o (p ≫= f) h =
    let '(t1, a) := run o p h in
    let '(t2, b) := run o (f a) (h ++ t1) in
    (t1 ++ t2, b).
Proof.
  revert h. induction p as [a|X e k IH]; intros h; cbn.
  - rewrite app_nil_r. by destruct (run o (f a) h).
  - specialize (IH (o X h e) (h ++ [ev e (o X h e)])).
    rewrite IH.
    destruct (run o (k (o X h e)) _) as [t1 a].
    rewrite <- app_assoc. cbn.
    by destruct (run o (f a) (h ++ ev e (o X h e) :: t1)).
Qed.

Lemma map_size_1_range (m : gmap string (option MFAConstraintAny)) :
  size m = 1 → ∃ k v, m = {[ k := v ]} ∧ map_range m = [(k, v)].
Proof.
  intros Hs. rewrite <- length_map_to_list in Hs.
  destruct (map_to_list m) as [|[k v] [|]] eqn:E; try discriminate.
  exists k, v. split.
  - rewrite <- (list_to_map_to_list m), E. cbn. by rewrite insert_empty.
  - pose proof (map_range_perm m) as P. rewrite E in P.
    by apply Permutation_singleton_r in P.
Qed.

End facts.

Section decision.
Context `{GoEnv}.

Lemma getMFAMethodInfo_singleton name (cptr : option MFAConstraintAny) :
  getMFAMethodInfo {[ name := cptr ]} = read_constraint cptr.
Proof.
  unfold getMFAMethodInfo.
  destruct (map_size_1_range {[ name := cptr ]}) as (k & v & E & ->).
  { apply map_size_singleton. }
  assert (v = cptr) as ->.
  { apply (f_equal (λ m : gmap string (option MFAConstraintAny), m !! name)) in E.
    rewrite lookup_singleton_eq in E.
    destruct (decide (k = name)) as [->|Hne].
    - rewrite lookup_singleton_eq in E. congruence.
    - rewrite lookup_singleton_ne in E by done. discriminate. }
  destruct cptr as [[ms]|]; [|done]. by destruct ms as [|[m|] [|]].
Qed.

Lemma the_single_method_singleton req name (cptr : option MFAConstraintAny) :
  MFAConstraints req = {[ name := cptr ]} →
  the_single_method req =
    match cptr with
    | Some cst =>
        match Any cst with
        | [m] => Some m
        | _ => None
        end
    | None => Some None
    end.
Proof.
  intros E. unfold the_single_method. rewrite E, map_to_list_singleton.
  by destruct cptr.
Qed.

Lemma the_single_method_size req :
  size (MFAConstraints req) ≠ 1 → the_single_method req = None.
Proof.
  intros Hs. unfold the_single_method. rewrite <- length_map_to_list in Hs.
  by destruct (map_to_list (MFAConstraints req)) as [|[k [cst|]] [|]].
Qed.

(** The decision, as a function of the terminal test. *)
Lemma run_evaluate_requirement (o : Oracle) (h : Trace) c req :
  run o (evaluate_requirement c req) h =
    if negb (size (MFAConstraints req) =? 1) then ([], Returned Defer)
    else
      let tty := o _ h isatty_IsTerminal in
      ([ev isatty_IsTerminal tty],
       if tty && negb (flagNonInteractive c) then
         match getMFAMethodInfo (MFAConstraints req) with
         | Returned methodInfo =>
             Returned (if negb (String.eqb (methodID methodInfo) "")
                       then AutoResolve methodInfo else Defer)
         | Panicked => Panicked
         end
       else Returned Defer).
Proof.
  unfold evaluate_requirement, isInteractiveEnabled.
  destruct (size (MFAConstraints req) =? 1); cbn; [|done].
  destruct (o bool h isatty_IsTerminal); cbn; [|done].
  destruct (flagNonInteractive c); cbn; [done|].
  destruct (getMFAMethodInfo _) as [mi|]; [|done].
  by destruct (negb _).
Qed.

Lemma one_constraint_one_method_size req m0 :
  one_constraint_one_method req m0 → size (MFAConstraints req) = 1.
Proof. intros [name ->]. apply map_size_singleton. Qed.

Lemma decision_autoresolve (o : Oracle) (h : Trace) c req m0 :
  one_constraint_one_method req m0 → ID m0 ≠ "" → interactive o h c →
  (run o (evaluate_requirement c req) h).2 = Returned (AutoResolve (info_of m0)).
Proof.
  intros Hone Hid [Htty Hflag]. rewrite run_evaluate_requirement.
  rewrite (one_constraint_one_method_size _ _ Hone). cbn.
  destruct Hone as [name ->]. rewrite Htty, Hflag. cbn.
  rewrite getMFAMethodInfo_singleton. cbn.
  by apply String.eqb_neq in Hid as ->.
Qed.

Lemma decision_autoresolve_inv (o : Oracle) (h : Trace) c req mi :
  (run o (evaluate_requirement c req) h).2 = Returned (AutoResolve mi) →
  ∃ m0, one_constraint_one_method req m0 ∧ ID m0 ≠ "" ∧
        mi = info_of m0 ∧ interactive o h c.
Proof.
  rewrite run_evaluate_requirement.
  destruct (size (MFAConstraints req) =? 1) eqn:Hs; cbn; [|done].
  apply Nat.eqb_eq, map_size_1_range in Hs as (name & cptr & E & _).
  rewrite E, getMFAMethodInfo_singleton.
  destruct (o bool h isatty_IsTerminal) eqn:Htty; cbn; [|done].
  destruct (flagNonInteractive c) eqn:Hflag; cbn; [done|].
  destruct cptr as [[ms]|]; [|done].
  destruct ms as [|[m0|] [|]]; cbn; try done.
  destruct (String.eqb_spec (ID m0) ""); cbn; [done|].
  intros [= <-]. exists m0. repeat split; try done. by exists name.
Qed.

(** The decision panics exactly when the session is interactive and a nil
    pointer stands for the single constraint or for its single method. *)
Lemma decision_panics (o : Oracle) (h : Trace) c req :
  (run o (evaluate_requirement c req) h).2 = Panicked ↔
  interactive o h c ∧ the_single_method req = Some None.
Proof.
  rewrite run_evaluate_requirement. unfold interactive.
  destruct (size (MFAConstraints req) =? 1) eqn:Hs; cbn.
  2: { apply Nat.eqb_neq, the_single_method_size in Hs. rewrite Hs.
       split; [done|by intros [_ ?]]. }
  apply Nat.eqb_eq, map_size_1_range in Hs as (name & cptr & E & _).
  rewrite (the_single_method_singleton _ _ _ E), E, getMFAMethodInfo_singleton.
  destruct (o bool h isatty_IsTerminal); cbn; [|split; [done|by intros [[? _] _]]].
  destruct (flagNonInteractive c); cbn; [split; [done|by intros [[_ ?] _]]|].
  destruct cptr as [[ms]|]; cbn; [|done].
  destruct ms as [|[m0|] [|]]; cbn; try done; split; try done; by intros [_ ?].
Qed.

End decision.

(** Case analysis on the answers of the oracle that a run depends on:
    use what is known about an answer, else name it and split on it. *)
Ltac oracle_step o :=
  cbn;
  first
    [ match goal with E : o _ _ _ = _ |- _ => rewrite E end
    | match goal with
      | |- context [o ?X ?h ?e] =>
          let a := fresh "a" in
          remember (o X h e) as a;
          try match type of a with unit => destruct a end
      end
    | match goal with
      | |- context [match ?x with _ => _ end] => is_var x; destruct x
      end
    | match goal with
      | |- context [String.eqb ?a ?b] => destruct (String.eqb a b) eqn:?
      end ].

Ltac oracle_cases o := repeat oracle_step o; cbn.

Section confirmation.
Context `{GoEnv}.

Lemma run_validateMFA (o : Oracle) (h : Trace) c rid mi p t1 :
  collects o h mi p t1 →
  run o (validateMFA c rid mi) h =
    let '(t, code) := run o (validateMFA_submit c rid mi p) (h ++ t1) in
    (t1 ++ t, code).
Proof.
  unfold collects, validateMFA. destruct (usePasscode mi).
  - intros [E ->]. cbn. rewrite E. cbn. by destruct (run o _ _).
  - intros [-> ->]. cbn. destruct (o unit h _). by destruct (run o _ _).
Qed.

Lemma run_validateMFA_submit_writes (o : Oracle) (h : Trace) c rid mi p cl :
  o _ h Client = (cl, None) →
  ∃ t,
    (run o (validateMFA_submit c rid mi p) h).1 =
      ev Client (cl, None) ::
      ev (Logical_Write cl "sys/mfa/validate" (validate_body rid mi p))
         (o _ (h ++ [ev Client (cl, None)])
            (Logical_Write cl "sys/mfa/validate" (validate_body rid mi p))) :: t ∧
    writes t = [] ∧ prompts t = [] ∧ client_requests t = 0.
Proof.
  intros E. unfold validateMFA_submit. cbn. rewrite E.
  oracle_cases o; eexists; (split; [reflexivity|done]).
Qed.

Lemma run_validateMFA_submit_no_client (o : Oracle) (h : Trace) c rid mi p cl e :
  o _ h Client = (cl, Some e) →
  run o (validateMFA_submit c rid mi p) h =
    ([ev Client (cl, Some e); ev (UI_Error e) tt], 2%Z).
Proof.
  intros E. unfold validateMFA_submit. cbn. rewrite E. cbn.
  by destruct (o unit _ _).
Qed.

Lemma validate_body_eq rid mi p :
  validate_body rid mi p = confirmation_body rid (methodID mi) p.
Proof. reflexivity. Qed.

(** The writes of a confirmation, whatever the client look-up answers. *)
Lemma writes_validateMFA (o : Oracle) (h : Trace) c rid mi p t1 :
  collects o h mi p t1 →
  let t := (run o (validateMFA c rid mi) h).1 in
  let cl := o _ (h ++ t1) Client in
  prompts t = prompts t1 ∧
  writes t =
    match cl.2 with
    | None => [(cl.1, "sys/mfa/validate", confirmation_body rid (methodID mi) p)]
    | Some _ => []
    end ∧
  client_requests t = 1.
Proof.
  intros Hc. cbn zeta. rewrite (run_validateMFA _ _ _ _ _ _ _ Hc).
  assert (writes t1 = [] ∧ client_requests t1 = 0) as [Hw Hr].
  { unfold collects in Hc. destruct (usePasscode mi), Hc as [_ ->]; done. }
  destruct (o _ (h ++ t1) Client) as [cl [e|]] eqn:E.
  - rewrite (run_validateMFA_submit_no_client _ _ _ _ _ _ _ _ E). cbn.
    unfold prompts, writes, client_requests in *.
    rewrite !omap_app, length_app, Hw, Hr. cbn.
    by rewrite app_nil_r.
  - destruct (run_validateMFA_submit_writes o (h ++ t1) c rid mi p cl E)
      as (t & Ht & Hwt & Hpt & Hrt).
    destruct (run o (validateMFA_submit c rid mi p) (h ++ t1)) as [t' code].
    cbn in Ht. subst t'. cbn.
    unfold prompts, writes, client_requests in *.
    rewrite !omap_app, length_app, Hw, Hr. cbn.
    rewrite Hwt, Hpt, app_nil_r. cbn in Hrt. by rewrite Hrt.
Qed.

End confirmation.

Section response.
Context `{GoEnv}.

Lemma the_single_method_Some req m0 :
  the_single_method req = Some (Some m0) ↔ one_constraint_one_method req m0.
Proof.
  unfold the_single_method, one_constraint_one_method. split.
  - destruct (map_to_list (MFAConstraints req)) as [|[name [[ms]|]] [|]] eqn:E;
      try done.
    destruct ms as [|m [|]]; try done. intros [= ->]. exists name.
    rewrite <- (list_to_map_to_list (MFAConstraints req)), E. cbn.
    by rewrite insert_empty.
  - intros [name ->]. by rewrite map_to_list_singleton.
Qed.

(** What [Run] does with a response that carries a requirement, by the
    decision taken. *)
Lemma run_Run_response (o : Oracle) (h : Trace) c secret auth req :
  Auth secret = Some auth → MFARequirement_ auth = Some req →
  run o (Run_response c secret) h =
    let '(t0, d) := run o (evaluate_requirement c req) h in
    match d with
    | Returned (AutoResolve mi) =>
        let '(t, code) := run o (validateMFA c (MFARequestID req) mi) (h ++ t0) in
        (t0 ++ t, code)
    | Returned Defer =>
        let warn := ev (UI_Warn deferral_warning) tt in
        let code := o _ (h ++ t0 ++ [warn]) (render_call c secret) in
        (t0 ++ [warn; ev (render_call c secret) code], code)
    | Panicked =>
        let code := o _ (h ++ t0) (runtime_panic nil_dereference) in
        (t0 ++ [ev (runtime_panic nil_dereference) code], code)
    end.
Proof.
  intros Ha Hr. rewrite run_evaluate_requirement.
  unfold Run_response, isInteractiveEnabled, render_call. rewrite Ha, Hr.
  destruct (negb (size _ =? 1)); cbn.
  { destruct (negb (String.eqb (flagField c) "")); cbn; by destruct (o unit _ _). }
  destruct (o bool h isatty_IsTerminal); cbn;
    [destruct (flagNonInteractive c); cbn|].
  2: destruct (getMFAMethodInfo _) as [mi|]; [|done].
  2: destruct (negb (String.eqb (methodID _) "")); [done|].
  all: destruct (negb (String.eqb (flagField c) "")); cbn;
    destruct (o unit _ _); by rewrite <- ?app_assoc.
Qed.

Lemma run_Run_response_defer (o : Oracle) (h : Trace) c secret auth req :
  Auth secret = Some auth → MFARequirement_ auth = Some req →
  (run o (evaluate_requirement c req) h).2 = Returned Defer →
  ∃ t0,
    (t0 = [] ∨ t0 = [ev isatty_IsTerminal (o _ h isatty_IsTerminal)]) ∧
    run o (Run_response c secret) h =
      let warn := ev (UI_Warn deferral_warning) tt in
      let code := o _ (h ++ t0 ++ [warn]) (render_call c secret) in
      (t0 ++ [warn; ev (render_call c secret) code], code).
Proof.
  intros Ha Hr Hd. rewrite (run_Run_response _ _ _ _ _ _ Ha Hr).
  rewrite run_evaluate_requirement in Hd |- *.
  destruct (negb (size _ =? 1)).
  - exists []. split; [by left|done].
  - cbn zeta in *. cbn [snd] in Hd. rewrite Hd.
    eexists. split; [by right|done].
Qed.


End response.

Section invocation.
Context `{GoEnv}.

Lemma after_app_None P (t1 t2 : Trace) :
  existsb P t1 = false → after P (t1 ++ t2) = after P t2.
Proof.
  induction t1 as [|ob t1 IH]; [done|]. cbn.
  destruct (P ob); [done|]. apply IH.
Qed.

(** [Run] either ends before it has a response to look at, or goes on
    with [Run_response] after the calls [pre]. *)
Lemma run_Run_cases (o : Oracle) (h : Trace) c0 args :
  (∃ pre code,
      run o (Run c0 args) h = (pre, code) ∧
      prompts pre = [] ∧ length (writes pre) ≤ 1 ∧
      (code = 0%Z ∨ code = 1%Z ∨ code = 2%Z) ∧
      (∀ t', after failed_write pre = Some t' → code = 2%Z ∧ quiet t')) ∨
  (∃ pre c secret t code,
      run o (Run c0 args) h = (pre ++ t, code) ∧
      run o (Run_response c secret) (h ++ pre) = (t, code) ∧
      prompts pre = [] ∧ length (writes pre) = 1 ∧ client_requests pre = 1 ∧
      existsb failed_write pre = false ∧ existsb failed_prompt pre = false).
Proof.
  unfold Run.
  repeat (cbn -[Run_response];
    first
      [ match goal with
        | |- context [o ?X ?h ?e] =>
            let a := fresh "a" in remember (o X h e) as a
        end
      | match goal with
        | |- context [match ?x with _ => _ end] => is_var x; destruct x
        end
      | match goal with
        | |- context [if ?b then _ else _] =>
            lazymatch b with
            | context [run] => fail
            | _ => destruct b
            end
        end ]).
  all: try (left; eexists _, _; split; [reflexivity|];
            cbn; split_and!; eauto; try lia;
            intros t' Ha; simplify_eq; by repeat split).
  all: right;
    match goal with
    | |- context [run ?o' (Run_response ?c ?s) ?hh] =>
        destruct (run o' (Run_response c s) hh) as [t code] eqn:E;
        eexists [_; _; _; _], c, s, t, code
    end;
    rewrite <- !app_assoc in E; by split_and!.
Qed.

End invocation.

(** ** The eligibility decision *)

Section eligibility.
Context `{GoEnv}.

(** C1 (amended): the decision is [AutoResolve] exactly when the
    requirement has exactly one constraint, that constraint has exactly
    one method, the id of that method is not empty, and the session is
    interactive; it then carries that method.  In every other case in which
    no nil pointer is read the decision is [Defer]. *)
Theorem evaluate_requirement_decision (o : Oracle) (h : Trace) c req :
  let d := (run o (evaluate_requirement c req) h).2 in
  (∀ mi, d = Returned (AutoResolve mi) ↔
     ∃ m0, one_constraint_one_method req m0 ∧ ID m0 ≠ "" ∧
           mi = info_of m0 ∧ interactive o h c) ∧
  (¬ nil_pointer_read o h c req →
   (d = Returned Defer ↔
      ¬ ∃ m0, one_constraint_one_method req m0 ∧ ID m0 ≠ "" ∧
              interactive o h c)).
Proof.
  cbn zeta. split.
  - intros mi. split; [apply decision_autoresolve_inv|].
    intros (m0 & Hone & Hid & -> & Hint). by apply decision_autoresolve.
  - intros Hnil. split.
    + intros Hd (m0 & Hone & Hid & Hint).
      by rewrite (decision_autoresolve o h c req m0) in Hd.
    + intros Hno.
      destruct (run o (evaluate_requirement c req) h).2 as [[mi|]|] eqn:Hd; [|done|].
      * destruct (decision_autoresolve_inv _ _ _ _ _ Hd) as (m0 & ? & ? & _ & ?).
        destruct Hno. by exists m0.
      * by apply decision_panics in Hd.
Qed.

(** C10: a requirement with exactly one constraint whose single method
    has the empty id is not resolved.  [Run] tests the terminal, shows the
    deferral warning and renders the original response; it issues no
    prompt, asks for no client and submits no write. *)
Theorem empty_method_id_is_deferred (o : Oracle) (h : Trace) c secret auth req m0 :
  Auth secret = Some auth → MFARequirement_ auth = Some req →
  one_constraint_one_method req m0 → ID m0 = "" →
  let tty := ev isatty_IsTerminal (o _ h isatty_IsTerminal) in
  let warn :=
    ev (UI_Warn
          (wrapAtLength
             ("A login request was issued that is subject to " +:+
              "MFA validation. Please make sure to validate the login by sending another " +:+
              "request to sys/mfa/validate endpoint.") +:+ newline)) tt in
  let code := o _ (h ++ [tty; warn]) (render_call c secret) in
  run o (Run_response c secret) h =
    ([tty; warn; ev (render_call c secret) code], code) ∧
  quiet (run o (Run_response c secret) h).1.
Proof.
  intros Ha Hr Hone Hid. cbn zeta.
  rewrite (run_Run_response _ _ _ _ _ _ Ha Hr), run_evaluate_requirement.
  rewrite (one_constraint_one_method_size _ _ Hone).
  destruct Hone as [name ->]. rewrite getMFAMethodInfo_singleton.
  cbn. rewrite Hid. cbn.
  destruct (o bool h isatty_IsTerminal), (flagNonInteractive c); cbn.
  all: split; [done|]; unfold quiet, render_call; by destruct (negb _).
Qed.

(** C7: for a response that carries a requirement, a client is asked
    for, a prompt issued or a write submitted only if the requirement has
    exactly one constraint with exactly one method.  When it has not, [Run]
    submits nothing and ends with the deferral warning followed by the
    rendering of the original response. *)
Theorem confirmation_only_for_single_method (o : Oracle) (h : Trace) c secret auth req :
  Auth secret = Some auth → MFARequirement_ auth = Some req →
  let t := (run o (Run_response c secret) h).1 in
  let code := (run o (Run_response c secret) h).2 in
  (client_requests t ≠ 0 ∨ writes t ≠ [] ∨ prompts t ≠ [] →
     ∃ m0, one_constraint_one_method req m0) ∧
  (the_single_method req = None →
     quiet t ∧
     ∃ t0, t = t0 ++ [ev (UI_Warn
                            (wrapAtLength
                               ("A login request was issued that is subject to " +:+
                                "MFA validation. Please make sure to validate the login by sending another " +:+
                                "request to sys/mfa/validate endpoint.") +:+ newline)) tt;
                      ev (render_call c secret) code] ∧
           (t0 = [] ∨ t0 = [ev isatty_IsTerminal (o _ h isatty_IsTerminal)])).
Proof.
  intros Ha Hr. cbn zeta.
  destruct (run o (evaluate_requirement c req) h).2 as [[mi|]|] eqn:Hd.
  - destruct (decision_autoresolve_inv _ _ _ _ _ Hd) as (m0 & Hone & _).
    split; [by exists m0|].
    apply the_single_method_Some in Hone. congruence.
  - destruct (run_Run_response_defer _ _ _ _ _ _ Ha Hr Hd) as (t0 & Ht0 & ->).
    cbn. split.
    + unfold render_call.
      destruct Ht0 as [-> | ->], (negb _); cbn; by intros [?|[?|?]].
    + intros _. split; [|by exists t0].
      unfold quiet, render_call.
      destruct Ht0 as [-> | ->], (negb _); by repeat split.
  - pose proof (proj1 (decision_panics o h c req) Hd) as [_ Hnil].
    split; [|congruence].
    rewrite (run_Run_response _ _ _ _ _ _ Ha Hr).
    rewrite run_evaluate_requirement in Hd |- *.
    destruct (negb (size _ =? 1)); [done|]. cbn zeta in *. cbn [snd] in Hd.
    rewrite Hd. cbn. by intros [?|[?|?]].
Qed.

End eligibility.

(** ** The confirmation request *)

Section submission.
Context `{GoEnv}.

(** C5: for a method that does not use a passcode, [validateMFA] issues
    no secret prompt, its first call is the notice that the validation is
    left to the upstream service and that a push notification is on its way
    to the authenticator app, and the passcode of the payload it submits is
    the empty string. *)
Theorem push_method_never_prompts (o : Oracle) (h : Trace) c rid mi :
  usePasscode mi = false →
  let t := (run o (validateMFA c rid mi) h).1 in
  let notice :=
    ev (UI_Warn
          ("Asking Vault to perform MFA validation with upstream service. " +:+
           "You should receive a push notification in your authenticator app shortly"))
       tt in
  prompts t = [] ∧ head t = Some notice ∧
  writes t =
    match o _ (h ++ [notice]) Client with
    | (cl, None) =>
        [(cl, "sys/mfa/validate", confirmation_body rid (methodID mi) "")]
    | (_, Some _) => []
    end.
Proof.
  intros Hp. cbn zeta.
  assert (collects o h mi "" [ev (UI_Warn push_notice) tt]) as Hc.
  { unfold collects. by rewrite Hp. }
  destruct (writes_validateMFA o h c rid mi _ _ Hc) as (Hpr & Hw & _).
  rewrite (run_validateMFA _ _ _ _ _ _ _ Hc) in Hpr, Hw |- *.
  destruct (run o (validateMFA_submit c rid mi "") _) as [t code].
  cbn in Hpr, Hw |- *. split; [done|]. split; [done|].
  rewrite Hw. by destruct (o _ _ Client) as [cl [e|]].
Qed.

(** C6: for a method that uses a passcode, when the secret prompt
    returns the string [s] without error, the passcode of the payload that
    [validateMFA] submits is [s] itself. *)
Theorem passcode_submitted_verbatim (o : Oracle) (h : Trace) c rid mi s :
  usePasscode mi = true →
  o _ h (UI_AskSecret (askSecret_query mi)) = (s, None) →
  let t := (run o (validateMFA c rid mi) h).1 in
  let ask := ev (UI_AskSecret (askSecret_query mi)) (s, None) in
  prompts t = [askSecret_query mi] ∧
  writes t =
    match o _ (h ++ [ask]) Client with
    | (cl, None) =>
        [(cl, "sys/mfa/validate", confirmation_body rid (methodID mi) s)]
    | (_, Some _) => []
    end.
Proof.
  intros Hp Hs. cbn zeta.
  assert (collects o h mi s [ev (UI_AskSecret (askSecret_query mi)) (s, None)]) as Hc.
  { unfold collects. by rewrite Hp. }
  destruct (writes_validateMFA o h c rid mi _ _ Hc) as (Hpr & Hw & _).
  split; [done|]. rewrite Hw. by destruct (o _ _ Client) as [cl [e|]].
Qed.

End submission.

(** ** The outcome of the confirmation *)

Section outcome.
Context `{GoEnv}.

Lemma string_app_assoc (a b c : string) : (a +:+ b) +:+ c = a +:+ b +:+ c.
Proof.
  induction a as [|x a IH]; [done|].
  change (String x ((a +:+ b) +:+ c) = String x (a +:+ b +:+ c)).
  by rewrite IH.
Qed.

Lemma askSecret_failed_mentions e :
  mentions "sys/mfa/validate" (askSecret_failed e).
Proof.
  exists ("failed to read the passphrase with error " +:+ fmt_q e +:+
          ". please validate the login by sending a request to "), "".
  unfold askSecret_failed. by rewrite !string_app_assoc.
Qed.

(** The three outcomes of the write of lines 237-240. *)
Lemma run_validateMFA_submit_failed (o : Oracle) (h : Trace) c rid mi p cl e body :
  o _ h Client = (cl, None) →
  let w := Logical_Write cl "sys/mfa/validate" (confirmation_body rid (methodID mi) p) in
  let h2 := h ++ [ev Client (cl, None)] in
  o _ h2 w = (body, Some e) →
  run o (validateMFA_submit c rid mi p) h =
    ([ev Client (cl, None); ev w (body, Some e); ev (UI_Error e) tt] ++
     match body with
     | Some s =>
         [ev (OutputSecret s)
             (o _ (h2 ++ [ev w (body, Some e); ev (UI_Error e) tt]) (OutputSecret s))]
     | None => []
     end, 2%Z).
Proof.
  intros Hcl w h2 Hw. unfold validateMFA_submit. cbn. rewrite Hcl. cbn.
  rewrite validate_body_eq. fold w h2. rewrite Hw. cbn.
  destruct (o unit _ _). destruct body; cbn; [|done].
  by rewrite <- !app_assoc.
Qed.

Lemma run_validateMFA_submit_empty (o : Oracle) (h : Trace) c rid mi p cl :
  o _ h Client = (cl, None) →
  let w := Logical_Write cl "sys/mfa/validate" (confirmation_body rid (methodID mi) p) in
  let h2 := h ++ [ev Client (cl, None)] in
  o _ h2 w = (None, None) →
  let fmt := o _ (h2 ++ [ev w (None, None)]) Format in
  run o (validateMFA_submit c rid mi p) h =
    ([ev Client (cl, None); ev w (None, None); ev Format fmt] ++
     (if String.eqb fmt "table"
      then [ev (UI_Info (success_msg "sys/mfa/validate")) tt] else []), 0%Z).
Proof.
  intros Hcl w h2 Hw. unfold validateMFA_submit. cbn. rewrite Hcl. cbn.
  rewrite validate_body_eq. fold w h2. rewrite Hw. cbn.
  destruct (String.eqb _ "table"); cbn; [|done]. by destruct (o unit _ _).
Qed.

Lemma run_validateMFA_submit_response (o : Oracle) (h : Trace) c rid mi p cl s :
  o _ h Client = (cl, None) →
  let w := Logical_Write cl "sys/mfa/validate" (confirmation_body rid (methodID mi) p) in
  let h2 := h ++ [ev Client (cl, None)] in
  o _ h2 w = (Some s, None) →
  let code := o _ (h2 ++ [ev w (Some s, None)]) (render_call c s) in
  run o (validateMFA_submit c rid mi p) h =
    ([ev Client (cl, None); ev w (Some s, None); ev (render_call c s) code], code).
Proof.
  intros Hcl w h2 Hw. unfold validateMFA_submit. cbn. rewrite Hcl. cbn.
  rewrite validate_body_eq. fold w h2. rewrite Hw. cbn.
  unfold render_call. by destruct (negb _).
Qed.

(** A response without a requirement goes straight to the renderer. *)
Lemma run_Run_response_plain (o : Oracle) (h : Trace) c s :
  (∀ auth, Auth s = Some auth → MFARequirement_ auth = None) →
  let code := o _ h (render_call c s) in
  run o (Run_response c s) h = ([ev (render_call c s) code], code).
Proof.
  intros Hno. unfold Run_response, render_call.
  destruct (Auth s) as [auth|]; [rewrite (Hno auth eq_refl)|];
    by destruct (negb _).
Qed.

End outcome.

Section termination.
Context `{GoEnv}.

Lemma validateMFA_handled (o : Oracle) (h : Trace) c rid mi :
  handled (run o (validateMFA c rid mi) h).1 (run o (validateMFA c rid mi) h).2.
Proof.
  unfold validateMFA, validateMFA_submit, handled, ends_at_failed_prompt, quiet.
  destruct (usePasscode mi); oracle_cases o.
  all: split_and!; try lia; try done.
  all: try (intros t' Ht'; by simplify_eq).
  all: intros _; split_and!; try done; by eexists [], _, _, _.
Qed.

Lemma handled_after_prefix (pre t : Trace) code :
  quiet pre → existsb failed_write pre = false →
  existsb failed_prompt pre = false →
  handled t code → handled (pre ++ t) code.
Proof.
  intros (Hw & Hp & Hc) Hfw Hfp (H1 & H2 & H3 & H4).
  unfold handled, writes, prompts, client_requests in *.
  rewrite !omap_app, length_app, Hw, after_app_None, existsb_app, Hfp by done.
  apply nil_length_inv in Hc. rewrite Hc. cbn.
  split_and!; try done.
  intros Ht. destruct (H4 Ht) as (? & ? & ? & t0 & q & p & e & -> & Hp0).
  split_and!; try done.
  exists (pre ++ t0), q, p, e. rewrite <- app_assoc. split; [done|].
  unfold prompts in *. by rewrite omap_app, Hp, Hp0.
Qed.

Lemma handled_render (o : Oracle) (pre : Trace) c s code :
  quiet pre → existsb failed_write pre = false →
  existsb failed_prompt pre = false →
  handled (pre ++ [ev (render_call c s) code]) code.
Proof.
  intros Hq Hfw Hfp. apply handled_after_prefix; try done.
  unfold handled, render_call.
  destruct (negb _); cbn; split_and!; try lia; done.
Qed.

Lemma Run_response_handled (o : Oracle) (h : Trace) c secret :
  handled (run o (Run_response c secret) h).1 (run o (Run_response c secret) h).2.
Proof.
  destruct (Auth secret) as [auth|] eqn:Ha;
    [destruct (MFARequirement_ auth) as [req|] eqn:Hr|].
  - rewrite (run_Run_response _ _ _ _ _ _ Ha Hr), run_evaluate_requirement.
    destruct (negb (size _ =? 1)).
    { apply (handled_render o [_]); by repeat split. }
    cbn zeta.
    destruct (_ && _);
      [destruct (getMFAMethodInfo (MFAConstraints req)) as [mi|];
       [destruct (negb (String.eqb _ ""))|]|].
    + pose proof (validateMFA_handled o
        (h ++ [ev isatty_IsTerminal (o _ h isatty_IsTerminal)]) c
        (MFARequestID req) mi) as Hv.
      destruct (run o (validateMFA _ _ _) _) as [t code]. cbn in Hv |- *.
      by apply (handled_after_prefix [_]).
    + apply (handled_render o [_; _]); by repeat split.
    + cbn. unfold handled. cbn. split_and!; try lia; done.
    + apply (handled_render o [_; _]); by repeat split.
  - rewrite run_Run_response_plain by (intros ?; rewrite Ha; by intros [= <-]).
    apply (handled_render o []); by repeat split.
  - rewrite run_Run_response_plain by (by rewrite Ha).
    apply (handled_render o []); by repeat split.
Qed.

(** A whole invocation: the original write and at most one more. *)
Lemma Run_handled (o : Oracle) (h : Trace) c0 args :
  let t := (run o (Run c0 args) h).1 in
  let code := (run o (Run c0 args) h).2 in
  length (writes t) ≤ 2 ∧
  (∀ t', after failed_write t = Some t' → code = 2%Z ∧ quiet t') ∧
  (existsb failed_prompt t = true →
     code = 2%Z ∧ length (writes t) = 1 ∧ client_requests t = 1 ∧
     ends_at_failed_prompt t).
Proof.
  cbn zeta.
  destruct (run_Run_cases o h c0 args) as
    [(pre & code & -> & Hp & Hw & _ & Hf)
    |(pre & c & secret & t & code & -> & Hr & Hp & Hw & Hc & Hfw & Hfp)]; cbn.
  - unfold writes in *. split_and!; [lia|done|].
    intros Hx. exfalso. clear -Hp Hx.
    induction pre as [|[X e a] pre IH]; [done|].
    destruct e; cbn in *; try done; by apply IH.
  - pose proof (Run_response_handled o (h ++ pre) c secret) as Hh.
    rewrite Hr in Hh. destruct Hh as (H1 & H2 & H3 & H4). cbn in *.
    unfold writes, client_requests in *.
    rewrite !omap_app, !length_app, after_app_None, existsb_app, Hfp by done.
    split_and!; [lia|done|]. intros Ht.
    destruct (H4 Ht) as (? & Hw0 & Hc0 & t0 & q & p & e & -> & Hp0).
    rewrite Hw0, Hc0. cbn. split_and!; try done; try lia.
    exists (pre ++ t0), q, p, e. rewrite <- app_assoc. split; [done|].
    unfold prompts in *. by rewrite omap_app, Hp, Hp0.
Qed.

End termination.

(** ** Failures and rendering *)

Section failures.
Context `{GoEnv}.

(** C3 (amended): when the write to [sys/mfa/validate] returns an error,
    [validateMFA] reports the error message, then renders the response
    body if the server returned one, and returns 2: the body comes after
    the error message, and nothing follows it. *)
Theorem failed_confirmation_error_then_body
    (o : Oracle) (h : Trace) c rid mi p t1 cl e body :
  collects o h mi p t1 →
  o _ (h ++ t1) Client = (cl, None) →
  let w := Logical_Write cl "sys/mfa/validate"
             (confirmation_body rid (methodID mi) p) in
  let h2 := (h ++ t1) ++ [ev Client (cl, None)] in
  o _ h2 w = (body, Some e) →
  run o (validateMFA c rid mi) h =
    (t1 ++ [ev Client (cl, None); ev w (body, Some e); ev (UI_Error e) tt] ++
     match body with
     | Some s =>
         [ev (OutputSecret s)
             (o _ (h2 ++ [ev w (body, Some e); ev (UI_Error e) tt]) (OutputSecret s))]
     | None => []
     end, 2%Z) ∧
  body_before_error (run o (validateMFA c rid mi) h).1 = false.
Proof.
  intros Hc Hcl w h2 Hw.
  rewrite (run_validateMFA _ _ _ _ _ _ _ Hc).
  rewrite (run_validateMFA_submit_failed _ _ _ _ _ _ _ _ _ Hcl Hw).
  split; [done|]. cbn [fst].
  unfold collects in Hc.
  destruct (usePasscode mi), Hc as [_ ->], body; done.
Qed.

(** C4: when the secret prompt of a passcode method fails, [validateMFA]
    makes no further call but the error message, which names
    [sys/mfa/validate], and returns 2.  In a whole invocation a failed
    prompt means exit code 2, the original write being the only write and
    the only client look-up, and the error message being the last call. *)
Theorem failed_prompt_submits_nothing (o : Oracle) (h : Trace) c rid mi p e :
  usePasscode mi = true →
  o _ h (UI_AskSecret (askSecret_query mi)) = (p, Some e) →
  run o (validateMFA c rid mi) h =
    ([ev (UI_AskSecret (askSecret_query mi)) (p, Some e);
      ev (UI_Error (askSecret_failed e)) tt], 2%Z) ∧
  mentions "sys/mfa/validate" (askSecret_failed e) ∧
  ∀ h0 c0 args,
    let t := (run o (Run c0 args) h0).1 in
    existsb failed_prompt t = true →
    (run o (Run c0 args) h0).2 = 2%Z ∧
    length (writes t) = 1 ∧ client_requests t = 1 ∧
    ends_at_failed_prompt t.
Proof.
  intros Hp Ha. split_and!.
  - unfold validateMFA. rewrite Hp. cbn. rewrite Ha. cbn.
    by destruct (o unit _ _).
  - apply askSecret_failed_mentions.
  - intros h0 c0 args. apply Run_handled.
Qed.

(** C8 (amended): the response of the confirmation write is rendered as
    [Run] renders the response of an ordinary write.  When the client cannot
    be obtained or the write returns an error, the exit code is 2.  Without
    error, an empty response gives exit code 0 and the message
    [Success! Data written to: sys/mfa/validate], shown only in the [table]
    format; a response [s] is handed to [PrintRawField] when [-field] is set
    and to [OutputSecret] otherwise, and the exit code is what that call
    returns.  [Run] renders a response without requirement by the same
    call. *)
Theorem confirmation_response_rendering (o : Oracle) (h : Trace) c rid mi p t1 :
  collects o h mi p t1 →
  let t := (run o (validateMFA c rid mi) h).1 in
  let code := (run o (validateMFA c rid mi) h).2 in
  let cl := (o _ (h ++ t1) Client).1 in
  let w := Logical_Write cl "sys/mfa/validate"
             (confirmation_body rid (methodID mi) p) in
  let h2 := (h ++ t1) ++ [ev Client (cl, None)] in
  let resp := (o _ h2 w).1 in
  let h3 := h2 ++ [ev w (resp, None)] in
  match (o _ (h ++ t1) Client).2 with
  | Some _ => code = 2%Z
  | None =>
      match (o _ h2 w).2, resp with
      | Some _, _ => code = 2%Z
      | None, None =>
          let fmt := o _ h3 Format in
          t = t1 ++ [ev Client (cl, None); ev w (resp, None); ev Format fmt] ++
              (if String.eqb fmt "table"
               then [ev (UI_Info "Success! Data written to: sys/mfa/validate") tt]
               else []) ∧
          code = 0%Z
      | None, Some s =>
          let r := o _ h3 (render_call c s) in
          t = t1 ++ [ev Client (cl, None); ev w (resp, None); ev (render_call c s) r] ∧
          code = r ∧
          render_call c s =
            (if negb (String.eqb (flagField c) "")
             then PrintRawField s (flagField c) else OutputSecret s) ∧
          ((∀ auth, Auth s = Some auth → MFARequirement_ auth = None) →
           run o (Run_response c s) h3 = ([ev (render_call c s) r], r))
      end
  end.
Proof.
  intros Hc. cbn zeta.
  rewrite (run_validateMFA _ _ _ _ _ _ _ Hc).
  destruct (o _ (h ++ t1) Client) as [cl [e|]] eqn:Hcl; cbn [fst snd].
  { by rewrite (run_validateMFA_submit_no_client _ _ _ _ _ _ _ _ Hcl). }
  destruct (o _ ((h ++ t1) ++ [ev Client (cl, None)])
              (Logical_Write cl "sys/mfa/validate"
                 (confirmation_body rid (methodID mi) p)))
    as [resp [e|]] eqn:Hw; cbn [fst snd]; [|destruct resp as [s|]].
  - by rewrite (run_validateMFA_submit_failed _ _ _ _ _ _ _ _ _ Hcl Hw).
  - rewrite (run_validateMFA_submit_response _ _ _ _ _ _ _ _ Hcl Hw).
    split_and!; try done. apply run_Run_response_plain.
  - by rewrite (run_validateMFA_submit_empty _ _ _ _ _ _ _ Hcl Hw).
Qed.

(** C9: an invocation makes at most two writes, the original one and at
    most one confirmation, and [validateMFA] at most one.  After a write
    that returned an error nothing is tried again: no write, no client
    look-up and no prompt follow, and the exit code is 2. *)
Theorem confirmation_submitted_at_most_once (o : Oracle) (h : Trace) c0 args :
  let t := (run o (Run c0 args) h).1 in
  let code := (run o (Run c0 args) h).2 in
  length (writes t) ≤ 2 ∧
  (∀ t', after failed_write t = Some t' → code = 2%Z ∧ quiet t') ∧
  ∀ h' c rid mi,
    let t := (run o (validateMFA c rid mi) h').1 in
    let code := (run o (validateMFA c rid mi) h').2 in
    length (writes t) ≤ 1 ∧
    (∀ t', after failed_write t = Some t' → code = 2%Z ∧ quiet t').
Proof.
  cbn zeta. destruct (Run_handled o h c0 args) as (H1 & H2 & _).
  split_and!; try done.
  intros h' c rid mi.
  by destruct (validateMFA_handled o h' c rid mi) as (? & _ & ? & _).
Qed.

End failures.

(** ** The claims on sample runs *)

(** The scenarios of the specification that end in a deferral. *)
Example two_constraints_defer :
  run (happy two_constraints) (evaluate_requirement sample_command two_constraints) [] =
    ([], Returned Defer).
Proof. vm_compute. reflexivity. Qed.

Example piped_session_defers :
  run (piped totp_requirement) (evaluate_requirement sample_command totp_requirement) [] =
    ([ev isatty_IsTerminal false], Returned Defer).
Proof. vm_compute. reflexivity. Qed.

Example opt_out_defers :
  run (happy totp_requirement)
      (evaluate_requirement (set_flags sample_command (false, "", true)) totp_requirement) [] =
    ([ev isatty_IsTerminal true], Returned Defer).
Proof. vm_compute. reflexivity. Qed.

Example single_method_resolves :
  run (happy totp_requirement) (evaluate_requirement sample_command totp_requirement) [] =
    ([ev isatty_IsTerminal true],
     Returned (AutoResolve (info_of (sample_method "m1" true)))).
Proof. vm_compute. reflexivity. Qed.

(** C1, as stated, fails: one constraint with one method and an interactive
    session, yet the decision is [Defer], because the method id is empty. *)
Lemma evaluate_requirement_empty_id_defers :
  let req := sample_requirement [sample_method "" true] in
  let o := happy req in
  one_constraint_one_method req (sample_method "" true) ∧
  interactive o [] sample_command ∧
  (run o (evaluate_requirement sample_command req) []).2 = Returned Defer.
Proof.
  cbn zeta. split; [|split].
  - by exists "c1".
  - done.
  - vm_compute. reflexivity.
Qed.

(** C3, as stated, fails: the confirmation is refused with a response
    body, and the body is rendered after the error message, not before. *)
Lemma refused_confirmation_body_after_error :
  let o := refused totp_requirement in
  let mi := info_of (sample_method "m1" true) in
  let w := Logical_Write 7 "sys/mfa/validate" (confirmation_body "rid" "m1" "123456") in
  run o (validateMFA sample_command "rid" mi) [] =
    ([ev (UI_AskSecret (askSecret_query mi)) ("123456", None);
      ev Client (7, None);
      ev w (Some denied_response, Some "permission denied");
      ev (UI_Error "permission denied") tt;
      ev (OutputSecret denied_response) 0%Z], 2%Z) ∧
  body_before_error (run o (validateMFA sample_command "rid" mi) []).1 = false.
Proof. split; vm_compute; reflexivity. Qed.

(** A method with the empty id, in an interactive session. *)
Lemma empty_method_id_is_deferred_witness :
  let req := sample_requirement [sample_method "" true] in
  let secret := sample_secret req in
  one_constraint_one_method req (sample_method "" true) ∧
  ID (sample_method "" true) = "" ∧
  run (happy req) (Run_response sample_command secret) [] =
    ([ev isatty_IsTerminal true; ev (UI_Warn deferral_warning) tt;
      ev (OutputSecret secret) 0%Z], 0%Z).
Proof.
  cbn zeta.
  assert (one_constraint_one_method (sample_requirement [sample_method "" true])
            (sample_method "" true)) as Hone by (by exists "c1").
  split; [exact Hone|]. split; [reflexivity|].
  exact (proj1 (empty_method_id_is_deferred
                  (happy (sample_requirement [sample_method "" true])) []
                  sample_command
                  (sample_secret (sample_requirement [sample_method "" true]))
                  _ _ _ eq_refl eq_refl Hone eq_refl)).
Defined.

(** Two constraints: nothing is submitted. *)
Lemma confirmation_only_for_single_method_witness :
  let secret := sample_secret two_constraints in
  the_single_method two_constraints = None ∧
  quiet (run (happy two_constraints) (Run_response sample_command secret) []).1.
Proof.
  cbn zeta.
  assert (the_single_method two_constraints = None) as Hnone
    by (vm_compute; reflexivity).
  split; [exact Hnone|].
  exact (proj1 (proj2 (confirmation_only_for_single_method
                         (happy two_constraints) [] sample_command
                         (sample_secret two_constraints) _ _
                         eq_refl eq_refl) Hnone)).
Defined.

(** One push method. *)
Lemma push_method_never_prompts_witness :
  let mi := info_of (sample_method "m1" false) in
  let t := (run (happy push_requirement) (validateMFA sample_command "rid" mi) []).1 in
  usePasscode mi = false ∧
  prompts t = [] ∧
  head t =
    Some (ev (UI_Warn
                ("Asking Vault to perform MFA validation with upstream service. " +:+
                 "You should receive a push notification in your authenticator app shortly"))
             tt) ∧
  writes t = [(7, "sys/mfa/validate", confirmation_body "rid" "m1" "")].
Proof.
  cbn zeta. split; [reflexivity|].
  exact (push_method_never_prompts (happy push_requirement) [] sample_command
           "rid" (info_of (sample_method "m1" false)) eq_refl).
Defined.

(** One passcode method: the payload carries what was typed. *)
Lemma passcode_submitted_verbatim_witness :
  let mi := info_of (sample_method "m1" true) in
  let t := (run (happy totp_requirement) (validateMFA sample_command "rid" mi) []).1 in
  usePasscode mi = true ∧
  prompts t = [askSecret_query mi] ∧
  writes t = [(7, "sys/mfa/validate", confirmation_body "rid" "m1" "123456")].
Proof.
  cbn zeta. split; [reflexivity|].
  exact (passcode_submitted_verbatim (happy totp_requirement) [] sample_command
           "rid" (info_of (sample_method "m1" true)) "123456" eq_refl eq_refl).
Defined.

(** The confirmation is refused with a response body. *)
Lemma failed_confirmation_error_then_body_witness :
  let o := refused totp_requirement in
  let mi := info_of (sample_method "m1" true) in
  let ask := ev (UI_AskSecret (askSecret_query mi)) ("123456", None) in
  let w := Logical_Write 7 "sys/mfa/validate" (confirmation_body "rid" "m1" "123456") in
  collects o [] mi "123456" [ask] ∧
  run o (validateMFA sample_command "rid" mi) [] =
    ([ask; ev Client (7, None);
      ev w (Some denied_response, Some "permission denied");
      ev (UI_Error "permission denied") tt;
      ev (OutputSecret denied_response) 0%Z], 2%Z).
Proof.
  cbn zeta.
  assert (collects (refused totp_requirement) [] (info_of (sample_method "m1" true))
            "123456"
            [ev (UI_AskSecret (askSecret_query (info_of (sample_method "m1" true))))
                ("123456", None)]) as Hc by (split; reflexivity).
  split; [exact Hc|].
  exact (proj1 (failed_confirmation_error_then_body
                  (refused totp_requirement) [] sample_command "rid" _ _ _ 7
                  "permission denied" (Some denied_response)
                  Hc eq_refl eq_refl)).
Defined.

(** The prompt reaches the end of input. *)
Lemma failed_prompt_submits_nothing_witness :
  let o := no_input totp_requirement in
  let mi := info_of (sample_method "m1" true) in
  let args := ["auth/userpass/login/alice"; "password=pw"] in
  usePasscode mi = true ∧
  run o (validateMFA sample_command "rid" mi) [] =
    ([ev (UI_AskSecret (askSecret_query mi)) ("", Some "EOF");
      ev (UI_Error (askSecret_failed "EOF")) tt], 2%Z) ∧
  existsb failed_prompt (run o (Run sample_command args) []).1 = true ∧
  (run o (Run sample_command args) []).2 = 2%Z ∧
  length (writes (run o (Run sample_command args) []).1) = 1.
Proof.
  cbn zeta.
  pose proof (failed_prompt_submits_nothing (no_input totp_requirement) []
                sample_command "rid" (info_of (sample_method "m1" true))
                "" "EOF" eq_refl eq_refl) as (Hv & _ & Hrun).
  assert (existsb failed_prompt
            (run (no_input totp_requirement)
               (Run sample_command ["auth/userpass/login/alice"; "password=pw"]) []).1
          = true) as Hfail by (vm_compute; reflexivity).
  destruct (Hrun [] sample_command _ Hfail) as (Hcode & Hw & _).
  split; [reflexivity|]. split; [exact Hv|]. split; [exact Hfail|].
  split; [exact Hcode|exact Hw].
Defined.

(** The confirmation returns a token, rendered in full. *)
Lemma confirmation_response_rendering_witness :
  let o := happy totp_requirement in
  let mi := info_of (sample_method "m1" true) in
  let ask := ev (UI_AskSecret (askSecret_query mi)) ("123456", None) in
  let w := Logical_Write 7 "sys/mfa/validate" (confirmation_body "rid" "m1" "123456") in
  collects o [] mi "123456" [ask] ∧
  (run o (validateMFA sample_command "rid" mi) []).1 =
    [ask; ev Client (7, None); ev w (Some token_response, None);
     ev (OutputSecret token_response) 0%Z] ∧
  (run o (validateMFA sample_command "rid" mi) []).2 = 0%Z.
Proof.
  cbn zeta.
  assert (collects (happy totp_requirement) [] (info_of (sample_method "m1" true))
            "123456"
            [ev (UI_AskSecret (askSecret_query (info_of (sample_method "m1" true))))
                ("123456", None)]) as Hc by (split; reflexivity).
  split; [exact Hc|].
  pose proof (confirmation_response_rendering (happy totp_requirement) []
                sample_command "rid" _ _ _ Hc) as Hr.
  cbn in Hr. destruct Hr as (Ht & Hcode & _).
  split; [exact Ht|exact Hcode].
Defined.

(** A refused confirmation ends the invocation. *)
Lemma confirmation_submitted_at_most_once_witness :
  let o := refused totp_requirement in
  let args := ["auth/userpass/login/alice"; "password=pw"] in
  let t := (run o (Run sample_command args) []).1 in
  after failed_write t =
    Some [ev (UI_Error "permission denied") tt;
          ev (OutputSecret denied_response) 0%Z] ∧
  length (writes t) ≤ 2 ∧
  (run o (Run sample_command args) []).2 = 2%Z.
Proof.
  cbn zeta.
  assert (after failed_write
            (run (refused totp_requirement)
               (Run sample_command ["auth/userpass/login/alice"; "password=pw"]) []).1
          = Some [ev (UI_Error "permission denied") tt;
                  ev (OutputSecret denied_response) 0%Z]) as Hafter
    by (vm_compute; reflexivity).
  destruct (confirmation_submitted_at_most_once (refused totp_requirement) []
              sample_command ["auth/userpass/login/alice"; "password=pw"])
    as (Hlen & Hend & _).
  split; [exact Hafter|]. split; [exact Hlen|].
  exact (proj1 (Hend _ Hafter)).
Defined.


(** ** The steps of [Run] before the response *)

Section prelude.
Context `{GoEnv}.

Lemma accepted_tests force (rest : list string) :
  arguments_accepted force rest →
  (length rest <? 1) = false ∧ ((length rest =? 1) && negb force) = false.
Proof.
  intros [Hne Hf]. destruct rest as [|a [|b rest]]; [done| |done].
  by rewrite Hf.
Qed.

Lemma flagForce_set_flags c0 (fl : bool * string * bool) :
  flagForce (set_flags c0 fl) = fl.1.1.
Proof. by destruct fl as [[? ?] ?]. Qed.

Lemma testStdin_set_flags c0 (fl : bool * string * bool) :
  testStdin (set_flags c0 fl) = testStdin c0.
Proof. by destruct fl as [[? ?] ?]. Qed.

(** Runs [Run] forward under what is known of the oracle's answers. *)
Ltac stage_unfold :=
  unfold first_written, client_asked, data_read, parsed, up_to_client,
    first_write, data_call, parse_obs, reader_of in *.

Ltac run_forward :=
  repeat (cbn -[Run_response];
          rewrite <- ?app_assoc; cbn [app];
          rewrite ?testStdin_set_flags, ?flagForce_set_flags;
          try match goal with
              | E : ?o _ _ _ = _ |- _ => rewrite E
              end).

Ltac accepted_cases Ha rest :=
  let Hne := fresh in
  let Hf := fresh in
  destruct Ha as [Hne Hf];
  destruct rest as [|? [|? ?]];
  [done|specialize (Hf eq_refl)|clear Hf].

(** X1: when the flags do not parse, when no argument is left, or when
    only the path is left and [-force] is not given, [Run] shows one error
    message and returns 1; it reads no data, asks for no client and writes
    nothing.  With no argument left the message always counts 0. *)
Theorem Run_usage_error (o : Oracle) (h : Trace) c0 args err fl rest :
  o _ h (FlagsParse args) = (err, fl, rest) →
  is_Some err ∨ ¬ arguments_accepted fl.1.1 rest →
  run o (Run c0 args) h =
    ([ev (FlagsParse args) (err, fl, rest);
      ev (UI_Error
            match err, rest with
            | Some e, _ => e
            | None, [] => "Not enough arguments (expected 1, got 0)"
            | None, _ => "Must supply data or use -force"
            end) tt], 1%Z).
Proof.
  intros Hp Hbad. unfold Run. cbn. rewrite Hp.
  destruct err as [e|]; cbn.
  { by destruct (o unit _ _). }
  destruct Hbad as [[? [=]]|Hbad].
  destruct rest as [|a [|b rest]]; cbn.
  - by destruct (o unit _ _).
  - rewrite flagForce_set_flags. destruct fl.1.1 eqn:Hf; cbn.
    + destruct Hbad. by split.
    + by destruct (o unit _ _).
  - destruct Hbad. by split.
Qed.

(** X2: when reading the key=value data fails, [Run] reports the failure
    and returns 1 without asking for a client.  The data is read from the
    test reader when one is set and from standard input otherwise, and from
    the arguments after the path. *)
Theorem Run_data_unreadable (o : Oracle) (h : Trace) c0 args fl rest data e :
  data_read o h c0 args fl rest data (Some e) →
  run o (Run c0 args) h =
    ([parse_obs args fl rest;
      ev (parseArgsData (reader_of c0) (tail rest)) (data, Some e);
      ev (UI_Error ("Failed to parse K=V data: " +:+ e)) tt], 1%Z).
Proof.
  intros [[Hp Ha] Hd]. accepted_cases Ha rest; stage_unfold; cbn [tail hd] in *.
  all: unfold Run; run_forward.
  all: by destruct (o unit _ _).
Qed.

(** X3: when the client cannot be obtained, [Run] reports the error and
    returns 2 without writing. *)
Theorem Run_client_unavailable (o : Oracle) (h : Trace) c0 args fl rest data cl e :
  client_asked o h c0 args fl rest data cl (Some e) →
  run o (Run c0 args) h =
    ([parse_obs args fl rest; ev (data_call c0 rest) (data, None);
      ev Client (cl, Some e); ev (UI_Error e) tt], 2%Z).
Proof.
  intros [[[Hp Ha] Hd] Hc]. accepted_cases Ha rest; stage_unfold; cbn [tail hd] in *.
  all: unfold Run; run_forward.
  all: by destruct (o unit _ _).
Qed.

(** X4: when the original write returns an error, [Run] reports it with
    the sanitized path, renders the response body in full if there is one,
    whatever [-field] says, and returns 2.  The response is not looked at
    for a requirement: no terminal test, prompt or second write follows. *)
Theorem Run_write_failed (o : Oracle) (h : Trace) c0 args fl rest data cl body e :
  first_written o h c0 args fl rest data cl (body, Some e) →
  let pre := up_to_client c0 args fl rest data cl in
  let failure :=
    [ev (first_write cl rest data) (body, Some e);
     ev (UI_Error ("Error writing data to " +:+ sanitizePath (hd "" rest) +:+
                   ": " +:+ e)) tt] in
  run o (Run c0 args) h =
    (pre ++ failure ++
     match body with
     | Some s => [ev (OutputSecret s) (o _ (h ++ pre ++ failure) (OutputSecret s))]
     | None => []
     end, 2%Z).
Proof.
  intros [[[[Hp Ha] Hd] Hc] Hw]. accepted_cases Ha rest; stage_unfold; cbn [tail hd] in *.
  all: unfold Run; run_forward.
  all: destruct (o unit _ _), body; run_forward; done.
Qed.

(** X5: when the original write returns neither an error nor a response,
    [Run] returns 0, and shows the message that data was written to the
    sanitized path only when the format is [table]. *)
Theorem Run_empty_response (o : Oracle) (h : Trace) c0 args fl rest data cl :
  first_written o h c0 args fl rest data cl (None, None) →
  let pre := up_to_client c0 args fl rest data cl ++
             [ev (first_write cl rest data) (None, None)] in
  let fmt := o _ (h ++ pre) Format in
  run o (Run c0 args) h =
    (pre ++ ev Format fmt ::
       (if String.eqb fmt "table"
        then [ev (UI_Info ("Success! Data written to: " +:+ sanitizePath (hd "" rest))) tt]
        else []), 0%Z).
Proof.
  intros [[[[Hp Ha] Hd] Hc] Hw]. accepted_cases Ha rest; stage_unfold; cbn [tail hd] in *.
  all: unfold Run; run_forward.
  all: destruct (String.eqb _ "table"); run_forward; try done.
  all: by destruct (o unit _ _).
Qed.

Lemma run_Run_first_written (o : Oracle) (h : Trace) c0 args fl rest data cl secret :
  first_written o h c0 args fl rest data cl (Some secret, None) →
  let pre := up_to_client c0 args fl rest data cl ++
             [ev (first_write cl rest data) (Some secret, None)] in
  run o (Run c0 args) h =
    (pre ++ (run o (Run_response (set_flags c0 fl) secret) (h ++ pre)).1,
     (run o (Run_response (set_flags c0 fl) secret) (h ++ pre)).2).
Proof.
  intros [[[[Hp Ha] Hd] Hc] Hw]. accepted_cases Ha rest; stage_unfold; cbn [tail hd] in *.
  all: unfold Run; run_forward.
  all: by destruct (run o (Run_response _ _) _).
Qed.

(** X6: when the original write returns a response without error, [Run]
    has parsed the flags, read the data, obtained the client and written the
    data to the sanitized first argument, in this order, and goes on with the
    response under the parsed flags; its exit code is that of this last
    step. *)
Theorem Run_then_response (o : Oracle) (h : Trace) c0 args fl rest data cl secret :
  first_written o h c0 args fl rest data cl (Some secret, None) →
  let pre := up_to_client c0 args fl rest data cl ++
             [ev (first_write cl rest data) (Some secret, None)] in
  run o (Run c0 args) h =
    (pre ++ (run o (Run_response (set_flags c0 fl) secret) (h ++ pre)).1,
     (run o (Run_response (set_flags c0 fl) secret) (h ++ pre)).2).
Proof. apply run_Run_first_written. Qed.

(** X7: an ordinary write, whose response carries no requirement, ends
    with one rendering of the response: the field named by [-field] when it
    is given, the whole response otherwise.  No warning is shown, the
    terminal is not tested, and the exit code is the renderer's. *)
Theorem Run_ordinary_write (o : Oracle) (h : Trace) c0 args fl rest data cl secret :
  first_written o h c0 args fl rest data cl (Some secret, None) →
  (∀ auth, Auth secret = Some auth → MFARequirement_ auth = None) →
  let pre := up_to_client c0 args fl rest data cl ++
             [ev (first_write cl rest data) (Some secret, None)] in
  let render :=
    if negb (String.eqb fl.1.2 "")
    then PrintRawField secret fl.1.2 else OutputSecret secret in
  run o (Run c0 args) h =
    (pre ++ [ev render (o _ (h ++ pre) render)], o _ (h ++ pre) render).
Proof.
  intros [[[[Hp Ha] Hd] Hc] Hw] Hno.
  accepted_cases Ha rest; stage_unfold; cbn [tail hd] in *.
  all: unfold Run; run_forward.
  all: rewrite (run_Run_response_plain _ _ _ _ Hno).
  all: unfold render_call; by destruct fl as [[? ?] ?].
Qed.

Ltac early_done :=
  unfold early; cbn; rewrite ?bool_decide_eq_true_2 by done;
  split_and!; (done || lia).

(** [Run] either ends early or reaches a response of the original write. *)
Lemma run_Run_shape (o : Oracle) (h : Trace) c0 args :
  early (run o (Run c0 args) h).1 ∨
  ∃ fl rest data cl secret,
    first_written o h c0 args fl rest data cl (Some secret, None).
Proof.
  destruct (o _ h (FlagsParse args)) as [[err fl] rest] eqn:Hp.
  destruct err as [e|].
  { left. unfold Run. run_forward. early_done. }
  destruct (decide (arguments_accepted fl.1.1 rest)) as [Ha|Hna].
  2: { left. unfold arguments_accepted in Hna. unfold Run. run_forward.
       destruct rest as [|a [|b rest]]; cbn.
       - early_done.
       - destruct fl.1.1; cbn; [|early_done]. destruct Hna. by split.
       - destruct Hna. by split. }
  destruct (o _ (h ++ [parse_obs args fl rest]) (data_call c0 rest))
    as [data [e|]] eqn:Hd.
  { left. accepted_cases Ha rest; stage_unfold; cbn [tail hd] in *.
    all: unfold Run; run_forward; early_done. }
  destruct (o _ (h ++ [parse_obs args fl rest; ev (data_call c0 rest) (data, None)])
              Client) as [cl [e|]] eqn:Hc.
  { left. accepted_cases Ha rest; stage_unfold; cbn [tail hd] in *.
    all: unfold Run; run_forward; early_done. }
  destruct (o _ (h ++ up_to_client c0 args fl rest data cl) (first_write cl rest data))
    as [[secret|] [e|]] eqn:Hw.
  4: { left. accepted_cases Ha rest; stage_unfold; cbn [tail hd] in *.
       all: unfold Run; run_forward.
       all: destruct (String.eqb _ "table"); run_forward; early_done. }
  2: { right. by exists fl, rest, data, cl, secret. }
  all: left; accepted_cases Ha rest; stage_unfold; cbn [tail hd] in *.
  all: unfold Run; run_forward; early_done.
Qed.

End prelude.

(** ** The confirmation within a whole run *)

Section confirmation_in_run.
Context `{GoEnv}.


End confirmation_in_run.


(** ** What holds of every run *)

Section every_run.
Context `{GoEnv}.

Lemma lookup_of_true cl (l : Obs) :
  lookup_of cl l = true → l = ev Client (cl, None).
Proof.
  destruct l as [X e a]. destruct e; try done. cbn.
  intros Hb. apply bool_decide_eq_true in Hb. by subst.
Qed.

Lemma writes_after_lookup_sound last (t t1 t2 : Trace) cl path data ans :
  writes_after_lookup last t = true →
  t = t1 ++ ev (Logical_Write cl path data) ans :: t2 →
  match t1 with
  | [] => last = Some (ev Client (cl, None))
  | _ => ∃ t0, t1 = t0 ++ [ev Client (cl, None)]
  end.
Proof.
  revert last t. induction t1 as [|x t1 IH]; intros last t Hc ->; cbn in Hc.
  - apply andb_prop in Hc as [Hc _]. destruct last as [l|]; [|done].
    by apply lookup_of_true in Hc as ->.
  - apply andb_prop in Hc as [_ Hc].
    specialize (IH (Some x) _ Hc eq_refl). destruct t1 as [|y t1].
    + injection IH as ->. by exists [].
    + destruct IH as [t0 ->]. by exists (x :: t0).
Qed.

Lemma writes_after_lookup_quiet last (t : Trace) :
  writes t = [] → writes_after_lookup last t = true.
Proof.
  revert last. induction t as [|ob t IH]; intros last Hw; [done|].
  unfold writes in *. cbn in *. destruct (written ob); [done|].
  cbn. by apply IH.
Qed.

(** [validateMFA] on its own. *)
Lemma validateMFA_profile (o : Oracle) (h : Trace) c rid mi last :
  let t := (run o (validateMFA c rid mi) h).1 in
  terminal_tests t = 0 ∧
  writes_after_lookup last t = true ∧
  ∀ s, s ∈ rendered t →
    ∃ cl body err, ev (Logical_Write cl "sys/mfa/validate" body) (Some s, err) ∈ t.
Proof.
  unfold validateMFA, validateMFA_submit.
  destruct (usePasscode mi); oracle_cases o.
  all: split_and!; [done|cbn; by rewrite ?bool_decide_eq_true_2|].
  all: intros rs Hs; cbn in Hs; try (by apply elem_of_nil in Hs).
  all: apply list_elem_of_singleton in Hs as ->.
  all: eexists _, _, _; rewrite !elem_of_cons; eauto 10.
Qed.

(** The three ways of [Run_response]: it renders the response it was
    given, after the terminal test when there is exactly one constraint and
    after the warning when there is a requirement; or it tests the terminal
    and goes on with [validateMFA]; or it tests the terminal and panics. *)
Lemma Run_response_shape (o : Oracle) (h : Trace) c secret :
  let tty := ev isatty_IsTerminal (o _ h isatty_IsTerminal) in
  let t0 := if single_constraint secret then [tty] else [] in
  (∃ w,
      (w = [] ∧ requirement_of secret = None ∨
       w = [ev (UI_Warn deferral_warning) tt] ∧ is_Some (requirement_of secret)) ∧
      run o (Run_response c secret) h =
        (t0 ++ w ++ [ev (render_call c secret)
                        (o _ (h ++ t0 ++ w) (render_call c secret))],
         o _ (h ++ t0 ++ w) (render_call c secret))) ∨
  (∃ req mi,
      requirement_of secret = Some req ∧ single_constraint secret = true ∧
      o _ h isatty_IsTerminal = true ∧ flagNonInteractive c = false ∧
      getMFAMethodInfo (MFAConstraints req) = Returned mi ∧ methodID mi ≠ "" ∧
      run o (Run_response c secret) h =
        (tty :: (run o (validateMFA c (MFARequestID req) mi) (h ++ [tty])).1,
         (run o (validateMFA c (MFARequestID req) mi) (h ++ [tty])).2)) ∨
  (∃ req,
      requirement_of secret = Some req ∧ single_constraint secret = true ∧
      o _ h isatty_IsTerminal = true ∧ flagNonInteractive c = false ∧
      getMFAMethodInfo (MFAConstraints req) = Panicked ∧
      run o (Run_response c secret) h =
        ([tty; ev (runtime_panic nil_dereference)
                  (o _ (h ++ [tty]) (runtime_panic nil_dereference))],
         o _ (h ++ [tty]) (runtime_panic nil_dereference))).
Proof.
  cbn zeta. unfold single_constraint, requirement_of.
  destruct (Auth secret) as [auth|] eqn:Ha;
    [destruct (MFARequirement_ auth) as [req|] eqn:Hr|].
  - rewrite (run_Run_response _ _ _ _ _ _ Ha Hr), run_evaluate_requirement.
    destruct (size _ =? 1); cbn [negb].
    2: { left. eexists. split; [right; split; [done|by eexists]|].
         by rewrite <- ?app_assoc, ?app_nil_r. }
    cbn zeta.
    destruct (o bool h isatty_IsTerminal) eqn:Htty; cbn [andb];
      [destruct (flagNonInteractive c) eqn:Hf; cbn [negb];
       [|destruct (getMFAMethodInfo (MFAConstraints req)) as [mi|] eqn:Hg;
         [destruct (String.eqb_spec (methodID mi) "") as [Hid|Hid]; cbn [negb]|]]|].
    2: { left. eexists. split; [right; split; [done|by eexists]|].
         by rewrite <- ?app_assoc, ?app_nil_r. }
    2: { right. left. exists req, mi. split_and!; try done.
         by destruct (run o (validateMFA _ _ _) _). }
    2: { right. right. exists req. by split_and!. }
    all: left; eexists; (split; [right; split; [done|by eexists]|]).
    all: by rewrite <- ?app_assoc, ?app_nil_r.
  - left. exists []. split; [by left|].
    rewrite run_Run_response_plain by (intros ?; rewrite Ha; by intros [= <-]).
    by rewrite <- ?app_assoc, ?app_nil_r.
  - left. exists []. split; [by left|].
    rewrite run_Run_response_plain by (by rewrite Ha).
    by rewrite <- ?app_assoc, ?app_nil_r.
Qed.

End every_run.

Section invariants.
Context `{GoEnv}.

Lemma validateMFA_renders_once (o : Oracle) (h : Trace) c rid mi :
  length (rendered (run o (validateMFA c rid mi) h).1) ≤ 1.
Proof.
  unfold validateMFA, validateMFA_submit.
  destruct (usePasscode mi); oracle_cases o; lia.
Qed.

Lemma Run_response_lookup (o : Oracle) (h : Trace) c secret last :
  writes_after_lookup last (run o (Run_response c secret) h).1 = true.
Proof.
  destruct (Run_response_shape o h c secret)
    as [(w & Hw & ->)|[(req & mi & _ & _ & _ & _ & _ & _ & ->)
                      |(req & _ & _ & _ & _ & _ & ->)]]; cbn [fst].
  - apply writes_after_lookup_quiet. unfold writes, render_call.
    rewrite !omap_app.
    destruct (single_constraint secret), Hw as [[-> _]|[-> _]], (negb _); done.
  - cbn. apply validateMFA_profile.
  - done.
Qed.

(** X8: in every run of [Run], each write comes right after a client
    look-up that returned without error, and it is made with the client that
    this look-up returned. *)
Theorem Run_writes_follow_lookup
    (o : Oracle) (h : Trace) c0 args t1 cl path data ans t2 :
  (run o (Run c0 args) h).1 = t1 ++ ev (Logical_Write cl path data) ans :: t2 →
  ∃ t0, t1 = t0 ++ [ev Client (cl, None)].
Proof.
  intros Ht.
  assert (writes_after_lookup None (run o (Run c0 args) h).1 = true) as Hc.
  { destruct (run_Run_shape o h c0 args)
      as [(_ & _ & _ & _ & Hl)|(fl & rest & d & cl' & secret & Hw)]; [done|].
    rewrite (run_Run_first_written _ _ _ _ _ _ _ _ _ Hw). cbn [fst].
    unfold up_to_client, parse_obs, data_call, first_write. cbn.
    rewrite bool_decide_eq_true_2 by done. apply Run_response_lookup. }
  pose proof (writes_after_lookup_sound _ _ _ _ _ _ _ _ Hc Ht) as Hs.
  by destruct t1.
Qed.

Lemma Run_response_quiet_unless_interactive (o : Oracle) (h : Trace) c secret :
  flagNonInteractive c = true ∨ o _ h isatty_IsTerminal = false →
  quiet (run o (Run_response c secret) h).1 ∧
  rendered (run o (Run_response c secret) h).1 = [secret].
Proof.
  intros Hni.
  destruct (Run_response_shape o h c secret)
    as [(w & Hw & ->)|[(req & mi & _ & _ & Htty & Hf & _)
                      |(req & _ & _ & Htty & Hf & _)]].
  - cbn [fst]. unfold quiet, writes, prompts, client_requests, rendered, render_call.
    rewrite !omap_app.
    destruct (single_constraint secret), Hw as [[-> _]|[-> _]], (negb _); done.
  - destruct Hni; congruence.
  - destruct Hni; congruence.
Qed.

(** X9: unless standard input is a terminal and [-non-interactive] is
    not given, [Run] handles the response without prompting, without asking
    for a client and without writing, and what it renders is the response it
    was given. *)
Theorem Run_response_not_interactive (o : Oracle) (h : Trace) c secret :
  flagNonInteractive c = true ∨ o _ h isatty_IsTerminal = false →
  quiet (run o (Run_response c secret) h).1 ∧
  rendered (run o (Run_response c secret) h).1 = [secret].
Proof. apply Run_response_quiet_unless_interactive. Qed.

(** X10: with [-non-interactive], or when no terminal test succeeds, a
    whole run of [Run] issues no prompt and makes no write besides the
    original one. *)
Theorem Run_not_interactive (o : Oracle) (h : Trace) c0 args :
  (o _ h (FlagsParse args)).1.2.2 = true ∨
  (∀ h', o _ h' isatty_IsTerminal = false) →
  let t := (run o (Run c0 args) h).1 in
  prompts t = [] ∧ length (writes t) ≤ 1 ∧ client_requests t ≤ 1.
Proof.
  intros Hni. cbn zeta.
  destruct (run_Run_shape o h c0 args)
    as [(Hp & _ & Hw & Hc & _)|(fl & rest & d & cl & secret & Hw)]; [done|].
  rewrite (run_Run_first_written _ _ _ _ _ _ _ _ _ Hw). cbn [fst].
  destruct (Run_response_quiet_unless_interactive o
              (h ++ up_to_client c0 args fl rest d cl ++
                 [ev (first_write cl rest d) (Some secret, None)])
              (set_flags c0 fl) secret) as [(Hqw & Hqp & Hqc) _].
  { destruct Hni as [Hni|Hni]; [left|by right].
    destruct Hw as [[[[Hp _] _] _] _]. rewrite Hp in Hni.
    by destruct fl as [[? ?] ?]. }
  unfold prompts, writes, client_requests in *.
  rewrite !omap_app, !length_app, Hqw, Hqp, Hqc.
  unfold up_to_client, parse_obs, data_call, first_write. cbn. split_and!; (done || lia).
Qed.

(** X11: handling a response, [Run] tests the terminal exactly when the
    response carries a requirement with exactly one constraint, and then
    once, whatever the flags are; [validateMFA] never does. *)
Theorem terminal_tested_for_single_constraint (o : Oracle) (h : Trace) c secret :
  terminal_tests (run o (Run_response c secret) h).1 =
    (if single_constraint secret then 1 else 0) ∧
  ∀ h' rid mi, terminal_tests (run o (validateMFA c rid mi) h').1 = 0.
Proof.
  split; [|intros h' rid mi; by apply (validateMFA_profile o h' c rid mi None)].
  destruct (Run_response_shape o h c secret)
    as [(w & Hw & ->)|[(req & mi & _ & -> & _ & _ & _ & _ & ->)
                      |(req & _ & -> & _ & _ & _ & ->)]]; cbn [fst].
  - unfold terminal_tests, render_call. rewrite !omap_app.
    destruct (single_constraint secret), Hw as [[-> _]|[-> _]], (negb _); done.
  - unfold terminal_tests. cbn. f_equal.
    by apply (validateMFA_profile o _ c _ _ None).
  - done.
Qed.

(** X12: handling a response, [Run] renders at most one response: the
    one it was given, and then it has submitted nothing, or one that a write
    to [sys/mfa/validate] returned. *)
Theorem Run_response_renders_one (o : Oracle) (h : Trace) c secret :
  let t := (run o (Run_response c secret) h).1 in
  length (rendered t) ≤ 1 ∧
  ∀ s, s ∈ rendered t →
    (s = secret ∧ quiet t) ∨
    ∃ cl body err,
      ev (Logical_Write cl "sys/mfa/validate" body) (Some s, err) ∈ t.
Proof.
  cbn zeta.
  destruct (Run_response_shape o h c secret)
    as [(w & Hw & ->)|[(req & mi & _ & _ & _ & _ & _ & _ & ->)
                      |(req & _ & _ & _ & _ & _ & ->)]]; cbn [fst].
  3: { split; [cbn; lia|]. intros s Hs. by apply elem_of_nil in Hs. }
  - assert (rendered (((if single_constraint secret
                        then [ev isatty_IsTerminal (o _ h isatty_IsTerminal)]
                        else []) ++ w ++
                       [ev (render_call c secret)
                           (o _ (h ++ (if single_constraint secret
                                       then [ev isatty_IsTerminal (o _ h isatty_IsTerminal)]
                                       else []) ++ w) (render_call c secret))]))
              = [secret] ∧
            quiet ((if single_constraint secret
                    then [ev isatty_IsTerminal (o _ h isatty_IsTerminal)]
                    else []) ++ w ++
                   [ev (render_call c secret)
                       (o _ (h ++ (if single_constraint secret
                                   then [ev isatty_IsTerminal (o _ h isatty_IsTerminal)]
                                   else []) ++ w) (render_call c secret))]))
      as [-> Hq].
    { unfold quiet, writes, prompts, client_requests, rendered, render_call.
      rewrite !omap_app.
      destruct (single_constraint secret), Hw as [[-> _]|[-> _]], (negb _); done. }
    split; [done|]. intros s Hs. apply list_elem_of_singleton in Hs as ->. by left.
  - split; [apply (validateMFA_renders_once o _ c)|].
    intros s Hs. right.
    destruct (validateMFA_profile o
                (h ++ [ev isatty_IsTerminal (o _ h isatty_IsTerminal)]) c
                (MFARequestID req) mi None)
      as (_ & _ & Hr).
    destruct (Hr s Hs) as (cl & body & err & Hin).
    exists cl, body, err. rewrite elem_of_cons. by right.
Qed.

(** X13: [validateMFA] returns a code other than 2 only after it has
    written to [sys/mfa/validate] and that write returned no error. *)
Theorem validateMFA_success_needs_write (o : Oracle) (h : Trace) c rid mi :
  (run o (validateMFA c rid mi) h).2 ≠ 2%Z →
  ∃ cl body resp,
    ev (Logical_Write cl "sys/mfa/validate" body) (resp, None)
      ∈ (run o (validateMFA c rid mi) h).1.
Proof.
  unfold validateMFA, validateMFA_submit.
  destruct (usePasscode mi); oracle_cases o; intros Hcode; try done.
  all: eexists _, _, _; rewrite !elem_of_cons; eauto 10.
Qed.

End invariants.


(** ** [getMFAMethodInfo] and the order of [range] *)

Lemma getMFAMethodInfo_entry `{GoEnv} (m : gmap string (option MFAConstraintAny)) :
  m = ∅ ∧ getMFAMethodInfo m = Returned MFAMethodInfo_zero ∨
  ∃ name cptr, m !! name = Some cptr ∧ getMFAMethodInfo m = read_constraint cptr.
Proof.
  unfold getMFAMethodInfo.
  destruct (map_range m) as [|[name cptr] l] eqn:E.
  - left. split; [|done]. apply map_to_list_empty_iff.
    pose proof (map_range_perm m) as P. rewrite E in P.
    symmetry in P. by apply Permutation_nil_r in P.
  - right. exists name, cptr. split.
    + apply elem_of_map_to_list. rewrite <- (map_range_perm m), E.
      apply elem_of_cons. by left.
    + destruct cptr as [[ms]|]; [|done]. by destruct ms as [|[m0|] [|]].
Qed.

Lemma range_from_perm name m : range_from name m ≡ₚ map_to_list m.
Proof.
  unfold range_from. destruct (m !! name) as [cst|] eqn:E; [|done].
  by apply map_to_list_delete.
Qed.

(** X14: [getMFAMethodInfo] returns the zero value for a map without
    constraints.  When it returns, the value is the zero value or the single
    method of one constraint of the map.  It panics only on a map that holds
    a nil constraint or a constraint whose single method is nil.  When the
    map has exactly one constraint, which is the only case in which [Run]
    calls it, the outcome does not depend on the order in which [range]
    visits a map. *)
Theorem getMFAMethodInfo_result (E1 E2 : GoEnv)
    (m : gmap string (option MFAConstraintAny)) :
  @getMFAMethodInfo E1 ∅ = Returned MFAMethodInfo_zero ∧
  (∀ mi, @getMFAMethodInfo E1 m = Returned mi →
     mi = MFAMethodInfo_zero ∨
     ∃ name m0, m !! name = Some (Some {| Any := [Some m0] |}) ∧ mi = info_of m0) ∧
  (@getMFAMethodInfo E1 m = Panicked →
     ∃ name, m !! name = Some None ∨
             ∃ cst, m !! name = Some (Some cst) ∧ Any cst = [None]) ∧
  (size m = 1 → @getMFAMethodInfo E1 m = @getMFAMethodInfo E2 m).
Proof.
  split_and!.
  - by destruct (@getMFAMethodInfo_entry E1 ∅)
      as [[_ ?]|(name & cptr & Hm & _)]; [|rewrite lookup_empty in Hm].
  - intros mi Hr.
    destruct (@getMFAMethodInfo_entry E1 m) as [[_ Hz]|(name & cptr & Hm & Hc)].
    { left. congruence. }
    rewrite Hc in Hr. destruct cptr as [[ms]|]; [|done].
    destruct ms as [|[m0|] [|]]; cbn in Hr; simplify_eq; try by left.
    right. by exists name, m0.
  - intros Hp.
    destruct (@getMFAMethodInfo_entry E1 m) as [[_ Hz]|(name & cptr & Hm & Hc)].
    { congruence. }
    rewrite Hc in Hp. exists name. destruct cptr as [[ms]|]; [|by left].
    destruct ms as [|[m0|] [|]]; cbn in Hp; simplify_eq.
    right. by eexists.
  - intros Hs.
    destruct (@map_size_1_range E1 m Hs) as (name & cptr & -> & _).
    by rewrite !getMFAMethodInfo_singleton.
Qed.

(** X15: with more than one constraint the result of [getMFAMethodInfo]
    is up to the order of [range]: for every constraint of the map there is
    an order under which that constraint alone decides the result. *)
Theorem getMFAMethodInfo_any_constraint (E : GoEnv)
    (m : gmap string (option MFAConstraintAny)) name cptr :
  m !! name = Some cptr →
  ∃ E' : GoEnv,
    @getMFAMethodInfo E' m =
      match cptr with
      | Some cst =>
          match Any cst with
          | [Some m0] => Returned (info_of m0)
          | [None] => Panicked
          | _ => Returned MFAMethodInfo_zero
          end
      | None => Panicked
      end.
Proof.
  intros Hm.
  exists {| sanitizePath := @sanitizePath E; wrapAtLength := @wrapAtLength E;
            fmt_q := @fmt_q E; map_range := range_from name;
            map_range_perm := range_from_perm name |}.
  unfold getMFAMethodInfo. cbn. unfold range_from. rewrite Hm.
  destruct cptr as [[ms]|]; [|done]. by destruct ms as [|[m0|] [|]].
Qed.


(** ** The further properties on sample runs *)

(** The flags do not parse. *)
Lemma Run_usage_error_witness :
  bad_flags _ [] (FlagsParse sample_args) =
    (Some "flag provided but not defined: -x", (false, "", false), []) ∧
  run bad_flags (Run sample_command sample_args) [] =
    ([ev (FlagsParse sample_args)
         (Some "flag provided but not defined: -x", (false, "", false), []);
      ev (UI_Error "flag provided but not defined: -x") tt], 1%Z).
Proof.
  split; [reflexivity|].
  exact (Run_usage_error bad_flags [] sample_command sample_args _ _ _
           eq_refl (or_introl (ex_intro _ _ eq_refl))).
Defined.

(** The data does not parse. *)
Lemma Run_data_unreadable_witness :
  data_read bad_data [] sample_command sample_args (false, "", false) sample_args
    ∅ (Some "invalid key/value pair") ∧
  (run bad_data (Run sample_command sample_args) []).2 = 1%Z.
Proof.
  assert (data_read bad_data [] sample_command sample_args (false, "", false)
            sample_args ∅ (Some "invalid key/value pair")) as Hd.
  { repeat split; try reflexivity; [discriminate|]. intros [=]. }
  split; [exact Hd|].
  exact (f_equal snd (Run_data_unreadable bad_data [] sample_command sample_args
                        _ _ _ _ Hd)).
Defined.

(** No client. *)
Lemma Run_client_unavailable_witness :
  client_asked no_client [] sample_command sample_args (false, "", false) sample_args
    sample_data 0 (Some "unable to create client") ∧
  writes (run no_client (Run sample_command sample_args) []).1 = [] ∧
  (run no_client (Run sample_command sample_args) []).2 = 2%Z.
Proof.
  assert (client_asked no_client [] sample_command sample_args (false, "", false)
            sample_args sample_data 0 (Some "unable to create client")) as Hc.
  { repeat split; try reflexivity; [discriminate|]. intros [=]. }
  split; [exact Hc|].
  pose proof (Run_client_unavailable no_client [] sample_command sample_args
                _ _ _ _ _ Hc) as Hr.
  split; [exact (f_equal (λ r, writes r.1) Hr)|exact (f_equal snd Hr)].
Defined.

(** The write is refused with a body, and [-field] is given. *)
Lemma Run_write_failed_witness :
  first_written write_denied [] sample_command sample_args (false, "token", false)
    sample_args sample_data 7 (Some denied_response, Some "permission denied") ∧
  rendered (run write_denied (Run sample_command sample_args) []).1 = [denied_response] ∧
  (run write_denied (Run sample_command sample_args) []).2 = 2%Z.
Proof.
  assert (first_written write_denied [] sample_command sample_args
            (false, "token", false) sample_args sample_data 7
            (Some denied_response, Some "permission denied")) as Hw.
  { repeat split; try reflexivity; [discriminate|]. intros [=]. }
  split; [exact Hw|].
  pose proof (Run_write_failed write_denied [] sample_command sample_args
                _ _ _ _ _ _ Hw) as Hr.
  split; [exact (f_equal (λ r, rendered r.1) Hr)|exact (f_equal snd Hr)].
Defined.

(** A forced write without data, answered without a response. *)
Lemma Run_empty_response_witness :
  first_written forced_write [] sample_command ["-force"; "transit/keys/my-key"]
    (true, "", false) ["transit/keys/my-key"] ∅ 7 (None, None) ∧
  run forced_write (Run sample_command ["-force"; "transit/keys/my-key"]) [] =
    ([ev (FlagsParse ["-force"; "transit/keys/my-key"])
         (None, (true, "", false), ["transit/keys/my-key"]);
      ev (parseArgsData os_Stdin []) (∅, None);
      ev Client (7, None);
      ev (Logical_Write 7 "transit/keys/my-key" ∅) (None, None);
      ev Format "table";
      ev (UI_Info "Success! Data written to: transit/keys/my-key") tt], 0%Z).
Proof.
  assert (first_written forced_write [] sample_command ["-force"; "transit/keys/my-key"]
            (true, "", false) ["transit/keys/my-key"] ∅ 7 (None, None)) as Hw.
  { repeat split; try reflexivity. discriminate. }
  split; [exact Hw|].
  exact (Run_empty_response forced_write [] sample_command _ _ _ _ _ Hw).
Defined.

(** A login answered with a requirement: the run goes on with it. *)
Lemma Run_then_response_witness :
  let secret := sample_secret totp_requirement in
  first_written (happy totp_requirement) [] sample_command sample_args
    (false, "", false) sample_args sample_data 7 (Some secret, None) ∧
  (run (happy totp_requirement) (Run sample_command sample_args) []).2 = 0%Z ∧
  length (run (happy totp_requirement) (Run sample_command sample_args) []).1 = 9.
Proof.
  cbn zeta.
  assert (first_written (happy totp_requirement) [] sample_command sample_args
            (false, "", false) sample_args sample_data 7
            (Some (sample_secret totp_requirement), None)) as Hw.
  { repeat split; try reflexivity; [discriminate|]. intros [=]. }
  split; [exact Hw|].
  pose proof (Run_then_response (happy totp_requirement) [] sample_command sample_args
                _ _ _ _ _ Hw) as Hr.
  split; [exact (f_equal snd Hr)|exact (f_equal (λ r, length r.1) Hr)].
Defined.

(** An ordinary write with [-field=token]. *)
Lemma Run_ordinary_write_witness :
  first_written ordinary_write [] sample_command sample_args (false, "token", false)
    sample_args sample_data 7 (Some token_response, None) ∧
  run ordinary_write (Run sample_command sample_args) [] =
    ([ev (FlagsParse sample_args) (None, (false, "token", false), sample_args);
      ev (parseArgsData os_Stdin ["password=pw"]) (sample_data, None);
      ev Client (7, None);
      ev (Logical_Write 7 "auth/userpass/login/alice" sample_data)
         (Some token_response, None);
      ev (PrintRawField token_response "token") 0%Z], 0%Z).
Proof.
  assert (first_written ordinary_write [] sample_command sample_args
            (false, "token", false) sample_args sample_data 7
            (Some token_response, None)) as Hw.
  { repeat split; try reflexivity; [discriminate|]. intros [=]. }
  split; [exact Hw|].
  refine (Run_ordinary_write ordinary_write [] sample_command sample_args
            _ _ _ _ _ Hw _).
  intros auth [=].
Defined.

(** The confirmation write of a login comes right after its look-up. *)
Lemma Run_writes_follow_lookup_witness :
  let o := happy totp_requirement in
  let mi := info_of (sample_method "m1" true) in
  let t1 :=
    [ev (FlagsParse sample_args) (None, (false, "", false), sample_args);
     ev (parseArgsData os_Stdin ["password=pw"]) (sample_data, None);
     ev Client (7, None);
     ev (Logical_Write 7 "auth/userpass/login/alice" sample_data)
        (Some (sample_secret totp_requirement), None);
     ev isatty_IsTerminal true;
     ev (UI_AskSecret (askSecret_query mi)) ("123456", None);
     ev Client (7, None)] in
  let w := ev (Logical_Write 7 "sys/mfa/validate" (confirmation_body "rid" "m1" "123456"))
              (Some token_response, None) in
  (run o (Run sample_command sample_args) []).1 =
    t1 ++ w :: [ev (OutputSecret token_response) 0%Z] ∧
  ∃ t0, t1 = t0 ++ [ev Client (7, None)].
Proof.
  cbn zeta.
  assert ((run (happy totp_requirement) (Run sample_command sample_args) []).1 =
          [ev (FlagsParse sample_args) (None, (false, "", false), sample_args);
           ev (parseArgsData os_Stdin ["password=pw"]) (sample_data, None);
           ev Client (7, None);
           ev (Logical_Write 7 "auth/userpass/login/alice" sample_data)
              (Some (sample_secret totp_requirement), None);
           ev isatty_IsTerminal true;
           ev (UI_AskSecret (askSecret_query (info_of (sample_method "m1" true))))
              ("123456", None);
           ev Client (7, None)] ++
          ev (Logical_Write 7 "sys/mfa/validate" (confirmation_body "rid" "m1" "123456"))
             (Some token_response, None) :: [ev (OutputSecret token_response) 0%Z])
    as Ht by (vm_compute; reflexivity).
  split; [exact Ht|].
  exact (Run_writes_follow_lookup (happy totp_requirement) [] sample_command
           sample_args _ _ _ _ _ _ Ht).
Defined.

(** Standard input is a pipe. *)
Lemma Run_response_not_interactive_witness :
  let secret := sample_secret totp_requirement in
  piped totp_requirement _ [] isatty_IsTerminal = false ∧
  quiet (run (piped totp_requirement) (Run_response sample_command secret) []).1 ∧
  rendered (run (piped totp_requirement) (Run_response sample_command secret) []).1
    = [secret].
Proof.
  cbn zeta. split; [reflexivity|].
  exact (Run_response_not_interactive (piped totp_requirement) [] sample_command
           (sample_secret totp_requirement) (or_intror eq_refl)).
Defined.

Lemma Run_not_interactive_witness :
  let t := (run (piped totp_requirement) (Run sample_command sample_args) []).1 in
  (∀ h', piped totp_requirement _ h' isatty_IsTerminal = false) ∧
  prompts t = [] ∧ length (writes t) ≤ 1 ∧ client_requests t ≤ 1.
Proof.
  cbn zeta. split; [intros h'; reflexivity|].
  exact (Run_not_interactive (piped totp_requirement) [] sample_command sample_args
           (or_intror (λ h', eq_refl))).
Defined.

(** After a login with a passcode, the token of the confirmation is what
    is rendered. *)
Lemma Run_response_renders_one_witness :
  let secret := sample_secret totp_requirement in
  let t := (run (happy totp_requirement) (Run_response sample_command secret) []).1 in
  token_response ∈ rendered t ∧
  ∃ cl body err,
    ev (Logical_Write cl "sys/mfa/validate" body) (Some token_response, err) ∈ t.
Proof.
  cbn zeta.
  assert (token_response ∈
            rendered (run (happy totp_requirement)
                        (Run_response sample_command (sample_secret totp_requirement))
                        []).1) as Hin.
  { vm_compute. apply list_elem_of_here. }
  split; [exact Hin|].
  destruct (proj2 (Run_response_renders_one (happy totp_requirement) []
                     sample_command (sample_secret totp_requirement)) _ Hin)
    as [[Heq _]|Hex]; [discriminate Heq|exact Hex].
Defined.

Lemma validateMFA_success_needs_write_witness :
  let mi := info_of (sample_method "m1" true) in
  let t := (run (happy totp_requirement) (validateMFA sample_command "rid" mi) []).1 in
  (run (happy totp_requirement) (validateMFA sample_command "rid" mi) []).2 = 0%Z ∧
  ∃ cl body resp, ev (Logical_Write cl "sys/mfa/validate" body) (resp, None) ∈ t.
Proof.
  cbn zeta. split; [reflexivity|].
  apply (validateMFA_success_needs_write (happy totp_requirement) [] sample_command).
  discriminate.
Defined.

(** One constraint: the order of stdpp and an order that starts from a
    name that is not in the map agree. *)
Lemma getMFAMethodInfo_result_witness :
  let E2 := {| sanitizePath := @sanitizePath sample_env;
               wrapAtLength := @wrapAtLength sample_env;
               fmt_q := @fmt_q sample_env;
               map_range := range_from "c9";
               map_range_perm := range_from_perm "c9" |} in
  size (MFAConstraints totp_requirement) = 1 ∧
  @getMFAMethodInfo sample_env (MFAConstraints totp_requirement) =
    @getMFAMethodInfo E2 (MFAConstraints totp_requirement).
Proof.
  cbn zeta. split; [reflexivity|].
  exact (proj2 (proj2 (proj2 (getMFAMethodInfo_result sample_env _
                                (MFAConstraints totp_requirement)))) eq_refl).
Defined.

(** Two constraints: an order reports the second one. *)
Lemma getMFAMethodInfo_any_constraint_witness :
  MFAConstraints two_constraints !! "c2" =
    Some (Some {| Any := [Some (sample_method "m2" false)] |}) ∧
  ∃ E' : GoEnv,
    @getMFAMethodInfo E' (MFAConstraints two_constraints) =
      Returned (info_of (sample_method "m2" false)).
Proof.
  split; [reflexivity|].
  exact (getMFAMethodInfo_any_constraint sample_env (MFAConstraints two_constraints)
           "c2" _ eq_refl).
Defined.


(** ** Nil pointers in the requirement *)

Section nil_pointers.
Context `{GoEnv}.

Lemma validateMFA_no_panic (o : Oracle) (h : Trace) c rid mi :
  panicked (run o (validateMFA c rid mi) h).1 = false.
Proof.
  unfold validateMFA, validateMFA_submit.
  destruct (usePasscode mi); oracle_cases o; done.
Qed.

(** X16: handling a response, [Run] panics exactly when the response
    carries a requirement, the session is interactive, and the single
    constraint of the requirement, or the single method of that constraint,
    is a nil pointer.  The panic comes right after the terminal test: no
    warning is shown, nothing is rendered, no client is asked for and
    nothing is written. *)
Theorem Run_response_panics_on_nil (o : Oracle) (h : Trace) c secret :
  (panicked (run o (Run_response c secret) h).1 = true ↔
   ∃ req, requirement_of secret = Some req ∧ nil_pointer_read o h c req) ∧
  (panicked (run o (Run_response c secret) h).1 = true →
   let tty := ev isatty_IsTerminal true in
   let code := o _ (h ++ [tty]) (runtime_panic nil_dereference) in
   run o (Run_response c secret) h =
     ([tty; ev (runtime_panic nil_dereference) code], code)).
Proof.
  unfold requirement_of.
  destruct (Auth secret) as [auth|] eqn:Ha;
    [destruct (MFARequirement_ auth) as [req|] eqn:Hr|].
  2: { rewrite run_Run_response_plain
         by (intros ?; rewrite Ha; by intros [= <-]).
       unfold render_call.
       destruct (negb _); cbn; (split; [split; [done|by intros (? & ? & _)]|done]). }
  2: { rewrite run_Run_response_plain by (by rewrite Ha).
       unfold render_call.
       destruct (negb _); cbn; (split; [split; [done|by intros (? & ? & _)]|done]). }
  pose proof (decision_panics o h c req) as Hd.
  rewrite (run_Run_response _ _ _ _ _ _ Ha Hr).
  rewrite run_evaluate_requirement in Hd |- *.
  destruct (negb (size (MFAConstraints req) =? 1)).
  { cbn in Hd |- *. unfold render_call. destruct (negb _); cbn.
    all: split; [split; [done|]|done].
    all: intros (? & [= <-] & Hn); by apply Hd in Hn. }
  cbn zeta in *. cbn [snd] in Hd.
  destruct (o bool h isatty_IsTerminal) eqn:Htty; cbn [andb] in *.
  2: { unfold render_call. destruct (negb _); cbn.
       all: split; [split; [done|]|done].
       all: intros (? & [= <-] & Hn); by apply Hd in Hn. }
  destruct (negb (flagNonInteractive c)); cbn [andb] in *.
  2: { unfold render_call. destruct (negb _); cbn.
       all: split; [split; [done|]|done].
       all: intros (? & [= <-] & Hn); by apply Hd in Hn. }
  destruct (getMFAMethodInfo (MFAConstraints req)) as [mi|].
  - destruct (negb (String.eqb (methodID mi) "")).
    + pose proof (validateMFA_no_panic o (h ++ [ev isatty_IsTerminal true]) c
                    (MFARequestID req) mi) as Hv.
      destruct (run o (validateMFA _ _ _) _) as [t code]. cbn in Hv |- *.
      rewrite Hv. split; [split; [done|]|done].
      intros (? & [= <-] & Hn); by apply Hd in Hn.
    + unfold render_call. destruct (negb _); cbn.
      all: split; [split; [done|]|done].
      all: intros (? & [= <-] & Hn); by apply Hd in Hn.
  - cbn. split; [|done]. split; [|done].
    intros _. exists req. split; [done|]. by apply Hd.
Qed.

End nil_pointers.

(** ** The amended claims on sample runs *)

(** Two constraints in an interactive session: no nil pointer is read and
    the decision is [Defer]. *)
Lemma evaluate_requirement_decision_witness :
  let o := happy two_constraints in
  ¬ nil_pointer_read o [] sample_command two_constraints ∧
  ((run o (evaluate_requirement sample_command two_constraints) []).2 = Returned Defer ↔
   ¬ ∃ m0, one_constraint_one_method two_constraints m0 ∧ ID m0 ≠ "" ∧
           interactive o [] sample_command).
Proof.
  cbn zeta.
  assert (¬ nil_pointer_read (happy two_constraints) [] sample_command two_constraints)
    as Hnil.
  { intros [_ Hs]. vm_compute in Hs. discriminate Hs. }
  split; [exact Hnil|].
  exact (proj2 (evaluate_requirement_decision (happy two_constraints) []
                  sample_command two_constraints) Hnil).
Defined.



(** C8, as stated, fails: the confirmation returns a response without
    error and the renderer returns 1, which is then the exit code. *)
Lemma rendered_confirmation_exit_code :
  let o := render_fails totp_requirement in
  let mi := info_of (sample_method "m1" true) in
  let w := Logical_Write 7 "sys/mfa/validate" (confirmation_body "rid" "m1" "123456") in
  run o (validateMFA sample_command "rid" mi) [] =
    ([ev (UI_AskSecret (askSecret_query mi)) ("123456", None);
      ev Client (7, None);
      ev w (Some token_response, None);
      ev (OutputSecret token_response) 1%Z], 1%Z) ∧
  existsb failed_write (run o (validateMFA sample_command "rid" mi) []).1 = false.
Proof. split; vm_compute; reflexivity. Qed.

(** A nil constraint in an interactive session. *)
Lemma Run_response_panics_on_nil_witness :
  let o := happy nil_constraint in
  let secret := sample_secret nil_constraint in
  panicked (run o (Run_response sample_command secret) []).1 = true ∧
  run o (Run_response sample_command secret) [] =
    ([ev isatty_IsTerminal true; ev (runtime_panic nil_dereference) 2%Z], 2%Z).
Proof.
  cbn zeta.
  assert (panicked (run (happy nil_constraint)
                      (Run_response sample_command (sample_secret nil_constraint)) []).1
          = true) as Hp by (vm_compute; reflexivity).
  split; [exact Hp|].
  exact (proj2 (Run_response_panics_on_nil (happy nil_constraint) [] sample_command
                  (sample_secret nil_constraint)) Hp).
Defined.
